(** * minbft: wire messages and their accessors

    A shallow embedding of [messages/messages.go]: the accessor methods
    of Request, Reply, Prepare and Commit, the extraction of a Prepare
    from a Commit, and the envelope functions [WrapMessage] and
    [UnwrapMessage].

    Go pointers are addresses into an explicit store, so that pointer
    identity, in-place field assignment and allocation are visible.  A
    method that can panic returns a [result]. *)

From Stdlib Require Import ZArith String List.
From stdpp Require Import base option gmap strings pretty.

Open Scope Z_scope.

(** ** Values *)

(** A Go [[]byte]: [None] is the nil slice. *)
Definition bytes : Type := option (list Byte.byte).

(** A Go [error] value, identified by its text. *)
Definition error : Type := string.

Definition addr : Type := positive.

(** A Go pointer [*T]. The parameter records the pointee type. *)
Inductive ptr (T : Type) : Type :=
| nil : ptr T
| at_ (a : addr) : ptr T.
Arguments nil {T}.
Arguments at_ {T} a.

(** ** Message structures

    The struct declarations come from the protobuf-generated file of the
    package, which is not among the sources. Their fields are the ones
    messages.go reads and writes, completed from the data model of the
    specification. *)

(** Modelled from the spec: the inner message of a Request (clientID,
    client-assigned timestamp, operation); messages.go reads ClientId. *)
Record Request_M : Type := {
  Request_M_ClientId : Z;          (* uint32 *)
  Request_M_Timestamp : Z;         (* uint64 *)
  Request_M_Operation : bytes
}.

(** Modelled from the spec: a Request, its inner message and the
    signature over it; messages.go uses Msg and Signature. *)
Record Request : Type := {
  Request_Msg : ptr Request_M;
  Request_Signature : bytes
}.

(** Modelled from the spec: the inner message of a Reply (clientID,
    result). *)
Record Reply_M : Type := {
  Reply_M_ClientId : Z;            (* uint32 *)
  Reply_M_Result : bytes
}.

(** Modelled from the spec: a Reply; messages.go uses Msg and
    Signature. *)
Record Reply : Type := {
  Reply_Msg : ptr Reply_M;
  Reply_Signature : bytes
}.

(** Modelled from the spec: the inner message of a Prepare. The field
    names are the ones Commit.Prepare writes: View, ReplicaId, Request. *)
Record Prepare_M : Type := {
  Prepare_M_View : Z;              (* uint64 *)
  Prepare_M_ReplicaId : Z;         (* uint32 *)
  Prepare_M_Request : ptr Request
}.

(** Modelled from the spec: a Prepare; messages.go uses Msg and
    ReplicaUi. *)
Record Prepare : Type := {
  Prepare_Msg : ptr Prepare_M;
  Prepare_ReplicaUi : bytes
}.

(** Modelled from the spec: the inner message of a Commit. The field
    names are the ones Commit.Prepare and Commit.ReplicaID read. *)
Record Commit_M : Type := {
  Commit_M_View : Z;               (* uint64 *)
  Commit_M_ReplicaId : Z;          (* uint32 *)
  Commit_M_PrimaryId : Z;          (* uint32 *)
  Commit_M_Request : ptr Request;
  Commit_M_PrimaryUi : bytes
}.

(** Modelled from the spec: a Commit; messages.go uses Msg and
    ReplicaUi. *)
Record Commit : Type := {
  Commit_Msg : ptr Commit_M;
  Commit_ReplicaUi : bytes
}.

(** Modelled from the spec: the four one-field structs of the generated
    file that implement [isMessage_Type]; the field names are the ones
    WrapMessage and UnwrapMessage use. *)
Record Message_Request : Type := { Message_Request_Request : ptr Request }.
Record Message_Reply : Type := { Message_Reply_Reply : ptr Reply }.
Record Message_Prepare : Type := { Message_Prepare_Prepare : ptr Prepare }.
Record Message_Commit : Type := { Message_Commit_Commit : ptr Commit }.

(** Modelled from the spec: a value of the interface [isMessage_Type]
    of the generated file: the nil interface, a
    pointer to one of the four variant structs, or a value of some
    other dynamic type, identified by the name of that type. *)
Inductive isMessage_Type : Type :=
| Type_nil
| Type_Request (t : ptr Message_Request)
| Type_Reply (t : ptr Message_Reply)
| Type_Prepare (t : ptr Message_Prepare)
| Type_Commit (t : ptr Message_Commit)
| Type_other (dyn : string).

(** Modelled from the spec: the envelope; messages.go uses Type. *)
Record Message : Type := { Message_Type : isMessage_Type }.

(** A value of [interface{}], as far as the type switches of this
    package tell values apart. *)
Inductive any : Type :=
| any_nil
| any_Request (m : ptr Request)
| any_Reply (m : ptr Reply)
| any_Prepare (m : ptr Prepare)
| any_Commit (m : ptr Commit)
| any_other (dyn : string).

(** ** The store *)

Inductive object : Type :=
| O_Request_M (v : Request_M)
| O_Request (v : Request)
| O_Reply_M (v : Reply_M)
| O_Reply (v : Reply)
| O_Prepare_M (v : Prepare_M)
| O_Prepare (v : Prepare)
| O_Commit_M (v : Commit_M)
| O_Commit (v : Commit)
| O_Message_Request (v : Message_Request)
| O_Message_Reply (v : Message_Reply)
| O_Message_Prepare (v : Message_Prepare)
| O_Message_Commit (v : Message_Commit)
| O_Message (v : Message).

Abbreviation Heap := (gmap addr object).

(** How a struct type is stored: its constructor in [object] and the
    matching projection. *)
Class Stored (T : Type) : Type := {
  to_object : T -> object;
  of_object : object -> option T;
  of_to_object : forall v, of_object (to_object v) = Some v;
  to_of_object : forall o v, of_object o = Some v -> o = to_object v
}.

Ltac solve_stored := first [ done | by intros [] ? [= <-] ].

#[export] Instance Stored_Request_M : Stored Request_M.
Proof.
  refine {| to_object := O_Request_M;
            of_object o := match o with O_Request_M v => Some v | _ => None end |};
    solve_stored.
Defined.

#[export] Instance Stored_Request : Stored Request.
Proof.
  refine {| to_object := O_Request;
            of_object o := match o with O_Request v => Some v | _ => None end |};
    solve_stored.
Defined.

#[export] Instance Stored_Reply_M : Stored Reply_M.
Proof.
  refine {| to_object := O_Reply_M;
            of_object o := match o with O_Reply_M v => Some v | _ => None end |};
    solve_stored.
Defined.

#[export] Instance Stored_Reply : Stored Reply.
Proof.
  refine {| to_object := O_Reply;
            of_object o := match o with O_Reply v => Some v | _ => None end |};
    solve_stored.
Defined.

#[export] Instance Stored_Prepare_M : Stored Prepare_M.
Proof.
  refine {| to_object := O_Prepare_M;
            of_object o := match o with O_Prepare_M v => Some v | _ => None end |};
    solve_stored.
Defined.

#[export] Instance Stored_Prepare : Stored Prepare.
Proof.
  refine {| to_object := O_Prepare;
            of_object o := match o with O_Prepare v => Some v | _ => None end |};
    solve_stored.
Defined.

#[export] Instance Stored_Commit_M : Stored Commit_M.
Proof.
  refine {| to_object := O_Commit_M;
            of_object o := match o with O_Commit_M v => Some v | _ => None end |};
    solve_stored.
Defined.

#[export] Instance Stored_Commit : Stored Commit.
Proof.
  refine {| to_object := O_Commit;
            of_object o := match o with O_Commit v => Some v | _ => None end |};
    solve_stored.
Defined.

#[export] Instance Stored_Message_Request : Stored Message_Request.
Proof.
  refine {| to_object := O_Message_Request;
            of_object o := match o with O_Message_Request v => Some v | _ => None end |};
    solve_stored.
Defined.

#[export] Instance Stored_Message_Reply : Stored Message_Reply.
Proof.
  refine {| to_object := O_Message_Reply;
            of_object o := match o with O_Message_Reply v => Some v | _ => None end |};
    solve_stored.
Defined.

#[export] Instance Stored_Message_Prepare : Stored Message_Prepare.
Proof.
  refine {| to_object := O_Message_Prepare;
            of_object o := match o with O_Message_Prepare v => Some v | _ => None end |};
    solve_stored.
Defined.

#[export] Instance Stored_Message_Commit : Stored Message_Commit.
Proof.
  refine {| to_object := O_Message_Commit;
            of_object o := match o with O_Message_Commit v => Some v | _ => None end |};
    solve_stored.
Defined.

#[export] Instance Stored_Message : Stored Message.
Proof.
  refine {| to_object := O_Message;
            of_object o := match o with O_Message v => Some v | _ => None end |};
    solve_stored.
Defined.

(** ** Outcomes, readers and store transformers *)

Inductive panic_value : Type :=
| nil_dereference                 (* runtime error: nil pointer dereference *)
| panic_string (s : string)       (* panic("...") *)
| panic_error (e : error).        (* panic(err) *)

(** [Stray] is the outcome of following a non-nil pointer that holds no
    object of its type. Go's memory safety rules it out; it keeps the
    model total. *)
Inductive result (A : Type) : Type :=
| Ok (a : A)
| Panic (v : panic_value)
| Stray.
Arguments Ok {A} a.
Arguments Panic {A} v.
Arguments Stray {A}.

(** A method that only reads the store. *)
Definition R (A : Type) : Type := Heap -> result A.

(** A method that may also write to it or allocate. *)
Definition M (A : Type) : Type := Heap -> result (A * Heap).

Definition ret {A} (a : A) : R A := fun _ => Ok a.

Definition bind {A B} (r : R A) (k : A -> R B) : R B :=
  fun h => match r h with
           | Ok a => k a h
           | Panic v => Panic v
           | Stray => Stray
           end.

Definition panic {A} (v : panic_value) : R A := fun _ => Panic v.

Definition mret {A} (a : A) : M A := fun h => Ok (a, h).

Definition mbind {A B} (m : M A) (k : A -> M B) : M B :=
  fun h => match m h with
           | Ok (a, h') => k a h'
           | Panic v => Panic v
           | Stray => Stray
           end.

(** A read inside a store transformer. *)
Definition get {A} (r : R A) : M A :=
  fun h => match r h with
           | Ok a => Ok (a, h)
           | Panic v => Panic v
           | Stray => Stray
           end.

Declare Scope read_scope.
Delimit Scope read_scope with read.
Bind Scope read_scope with R.
Notation "x <- r ;; k" := (bind r (fun x => k))
  (at level 100, r at next level, right associativity) : read_scope.

Declare Scope go_scope.
Delimit Scope go_scope with go.
Bind Scope go_scope with M.
Notation "x <- m ;; k" := (mbind m (fun x => k))
  (at level 100, m at next level, right associativity) : go_scope.

Open Scope read_scope.

(** The object of type [T] at an address, if there is one. *)
Definition object_at {T} `{Stored T} (h : Heap) (a : addr) : option T :=
  h !! a ≫= of_object.

(** [*p] for reading: a nil pointer panics. *)
Definition load {T} `{Stored T} (p : ptr T) : R T :=
  fun h => match p with
           | nil => Panic nil_dereference
           | at_ a => match object_at h a with
                      | Some v => Ok v
                      | None => Stray
                      end
           end.

(** [*p = v]: a nil pointer panics. *)
Definition store {T} `{Stored T} (p : ptr T) (v : T) : M unit :=
  fun h => match p with
           | nil => Panic nil_dereference
           | at_ a => match object_at (T:=T) h a with
                      | Some _ => Ok (tt, <[a := to_object v]> h)
                      | None => Stray
                      end
           end.

(** [&T{...}]: a new object at an address not in use. *)
Definition new {T} `{Stored T} (v : T) : M (ptr T) :=
  fun h => let a := fresh (dom h) in Ok (at_ a, <[a := to_object v]> h).

(** A pointer that holds an object, and a pointer that is nil or holds one. *)
Definition points_to {T} `{Stored T} (h : Heap) (p : ptr T) (v : T) : Prop :=
  exists a, p = at_ a /\ h !! a = Some (to_object v).

Definition valid {T} `{Stored T} (h : Heap) (p : ptr T) : Prop :=
  p = nil \/ exists v, points_to h p v.

(** ** Generated getters *)

(** Modelled from the spec: the getters of the generated file, which is
    not among the sources. Each one tests its receiver against nil and
    returns the field, or the zero value of the field's type. *)
Definition getter {T A} `{Stored T} (field : T -> A) (zero : A) (m : ptr T) : R A :=
  match m with
  | nil => ret zero
  | at_ _ => (v <- load m ;; ret (field v))%read
  end.

(** Modelled from the spec: the getters messages.go calls. *)
Definition Request_M_GetClientId := getter Request_M_ClientId 0.
Definition Request_GetMsg := getter Request_Msg nil.
Definition Request_GetSignature := getter Request_Signature None.
Definition Reply_GetMsg := getter Reply_Msg nil.
Definition Reply_GetSignature := getter Reply_Signature None.
Definition Prepare_M_GetView := getter Prepare_M_View 0.
Definition Prepare_M_GetReplicaId := getter Prepare_M_ReplicaId 0.
Definition Prepare_M_GetRequest := getter Prepare_M_Request nil.
Definition Prepare_GetMsg := getter Prepare_Msg nil.
Definition Prepare_GetReplicaUi := getter Prepare_ReplicaUi None.
Definition Commit_M_GetView := getter Commit_M_View 0.
Definition Commit_M_GetReplicaId := getter Commit_M_ReplicaId 0.
Definition Commit_M_GetPrimaryId := getter Commit_M_PrimaryId 0.
Definition Commit_M_GetRequest := getter Commit_M_Request nil.
Definition Commit_M_GetPrimaryUi := getter Commit_M_PrimaryUi None.
Definition Commit_GetMsg := getter Commit_Msg nil.
Definition Commit_GetReplicaUi := getter Commit_ReplicaUi None.

(** ** What the serializer reads

    [proto.Marshal] receives a pointer and walks the objects behind it.
    The walk is modelled here; the encoding of what it finds is the
    library's and stays a parameter. *)

Record Request_pb : Type := {
  pb_Request_Msg : option Request_M;
  pb_Request_Signature : bytes
}.

Record Prepare_M_pb : Type := {
  pb_Prepare_M_View : Z;
  pb_Prepare_M_ReplicaId : Z;
  pb_Prepare_M_Request : option Request_pb
}.

Record Commit_M_pb : Type := {
  pb_Commit_M_View : Z;
  pb_Commit_M_ReplicaId : Z;
  pb_Commit_M_PrimaryId : Z;
  pb_Commit_M_Request : option Request_pb;
  pb_Commit_M_PrimaryUi : bytes
}.

(** The argument of [proto.Marshal] at its four call sites; [None] is a
    nil pointer of the type. *)
Inductive proto_Message : Type :=
| pb_Request_M (v : option Request_M)
| pb_Reply_M (v : option Reply_M)
| pb_Prepare_M (v : option Prepare_M_pb)
| pb_Commit_M (v : option Commit_M_pb).

Definition walk {T A} `{Stored T} (inner : T -> R A) (p : ptr T) : R (option A) :=
  match p with
  | nil => ret None
  | at_ _ => (v <- load p ;; x <- inner v ;; ret (Some x))%read
  end.

Definition walk_Request_M : ptr Request_M -> R (option Request_M) := walk ret.

Definition walk_Reply_M : ptr Reply_M -> R (option Reply_M) := walk ret.

Definition walk_Request : ptr Request -> R (option Request_pb) :=
  walk (fun v =>
    msg <- walk_Request_M (Request_Msg v) ;;
    ret {| pb_Request_Msg := msg; pb_Request_Signature := Request_Signature v |})%read.

Definition walk_Prepare_M : ptr Prepare_M -> R (option Prepare_M_pb) :=
  walk (fun v =>
    req <- walk_Request (Prepare_M_Request v) ;;
    ret {| pb_Prepare_M_View := Prepare_M_View v;
           pb_Prepare_M_ReplicaId := Prepare_M_ReplicaId v;
           pb_Prepare_M_Request := req |})%read.

Definition walk_Commit_M : ptr Commit_M -> R (option Commit_M_pb) :=
  walk (fun v =>
    req <- walk_Request (Commit_M_Request v) ;;
    ret {| pb_Commit_M_View := Commit_M_View v;
           pb_Commit_M_ReplicaId := Commit_M_ReplicaId v;
           pb_Commit_M_PrimaryId := Commit_M_PrimaryId v;
           pb_Commit_M_Request := req;
           pb_Commit_M_PrimaryUi := Commit_M_PrimaryUi v |})%read.

(** ** The interfaces of messages.go *)

Class ClientMessage (T : Type) : Type := {
  ClientID : ptr T -> R Z
}.

Class MessageWithUI (T : Type) : Type := {
  ReplicaID : ptr T -> R Z;
  UIPayload : ptr T -> R bytes;
  UIBytes : ptr T -> R bytes;
  AttachUI : ptr T -> bytes -> M unit
}.

Class MessageWithSignature (T : Type) : Type := {
  SigPayload : ptr T -> R bytes;
  SignatureBytes : ptr T -> R bytes;
  AttachSignature : ptr T -> bytes -> M unit
}.

(** The kind of a concrete message and the tag of an envelope. *)
Inductive kind : Type := KRequest | KReply | KPrepare | KCommit.

Definition kind_of (m : any) : option kind :=
  match m with
  | any_Request _ => Some KRequest
  | any_Reply _ => Some KReply
  | any_Prepare _ => Some KPrepare
  | any_Commit _ => Some KCommit
  | any_nil | any_other _ => None
  end.

Definition tag_of (t : isMessage_Type) : option kind :=
  match t with
  | Type_Request _ => Some KRequest
  | Type_Reply _ => Some KReply
  | Type_Prepare _ => Some KPrepare
  | Type_Commit _ => Some KCommit
  | Type_nil | Type_other _ => None
  end.

(** The tag of the envelope behind a pointer. *)
Definition envelope_tag (m : ptr Message) : R (option kind) :=
  (v <- load m ;; ret (tag_of (Message_Type v)))%read.

(** What a Commit says about the Prepare it answers, and what a Prepare
    says about itself: view, primary, request and the primary's UI. *)
Definition Commit_content (c : ptr Commit) : R (Z * Z * ptr Request * bytes) :=
  msg <- Commit_GetMsg c ;;
  view <- Commit_M_GetView msg ;;
  primary <- Commit_M_GetPrimaryId msg ;;
  request <- Commit_M_GetRequest msg ;;
  ui <- Commit_M_GetPrimaryUi msg ;;
  ret (view, primary, request, ui).

Definition Prepare_content (p : ptr Prepare) : R (Z * Z * ptr Request * bytes) :=
  msg <- Prepare_GetMsg p ;;
  view <- Prepare_M_GetView msg ;;
  replica <- Prepare_M_GetReplicaId msg ;;
  request <- Prepare_M_GetRequest msg ;;
  ui <- Prepare_GetReplicaUi p ;;
  ret (view, replica, request, ui).

(** A reader whose successful result survives the growth of the store. *)
Definition mono {A} (r : R A) : Prop :=
  forall (h h' : Heap) x, h ⊆ h' -> r h = Ok x -> r h' = Ok x.

(** Two struct types with different constructors in [object]. *)
Class Apart (T U : Type) `{Stored T} `{Stored U} : Prop :=
  apart : forall u : U, of_object (T:=T) (to_object u) = None.

Ltac solve_apart := intros ?; reflexivity.

#[export] Instance Apart_Request_M_Request : Apart Request_M Request.
Proof. solve_apart. Qed.
#[export] Instance Apart_Reply_M_Reply : Apart Reply_M Reply.
Proof. solve_apart. Qed.
#[export] Instance Apart_Request_M_Prepare : Apart Request_M Prepare.
Proof. solve_apart. Qed.
#[export] Instance Apart_Request_Prepare : Apart Request Prepare.
Proof. solve_apart. Qed.
#[export] Instance Apart_Prepare_M_Prepare : Apart Prepare_M Prepare.
Proof. solve_apart. Qed.
#[export] Instance Apart_Request_M_Commit : Apart Request_M Commit.
Proof. solve_apart. Qed.
#[export] Instance Apart_Request_Commit : Apart Request Commit.
Proof. solve_apart. Qed.
#[export] Instance Apart_Commit_M_Commit : Apart Commit_M Commit.
Proof. solve_apart. Qed.
#[export] Instance Apart_Commit_Commit_M : Apart Commit Commit_M.
Proof. solve_apart. Qed.

#[export] Instance Apart_Commit_M_Prepare : Apart Commit_M Prepare.
Proof. solve_apart. Qed.
#[export] Instance Apart_Commit_Prepare : Apart Commit Prepare.
Proof. solve_apart. Qed.
#[export] Instance Apart_Prepare_M_Commit : Apart Prepare_M Commit.
Proof. solve_apart. Qed.
#[export] Instance Apart_Prepare_Commit : Apart Prepare Commit.
Proof. solve_apart. Qed.
#[export] Instance Apart_Reply_M_Request : Apart Reply_M Request.
Proof. solve_apart. Qed.
#[export] Instance Apart_Reply_Request : Apart Reply Request.
Proof. solve_apart. Qed.
#[export] Instance Apart_Request_M_Reply : Apart Request_M Reply.
Proof. solve_apart. Qed.
#[export] Instance Apart_Request_Reply : Apart Request Reply.
Proof. solve_apart. Qed.
#[export] Instance Apart_Prepare_Request : Apart Prepare Request.
Proof. solve_apart. Qed.
#[export] Instance Apart_Prepare_M_Request : Apart Prepare_M Request.
Proof. solve_apart. Qed.
#[export] Instance Apart_Commit_Request : Apart Commit Request.
Proof. solve_apart. Qed.
#[export] Instance Apart_Commit_M_Request : Apart Commit_M Request.
Proof. solve_apart. Qed.

(** A reader whose outcome, value or panic, survives the growth of the
    store. *)
Definition stable {A} (r : R A) : Prop :=
  forall (h h' : Heap), h ⊆ h' -> r h <> Stray -> r h' = r h.

(** Two stores that hold the same objects of type [T]. *)
Definition agree (T : Type) `{Stored T} (h h' : Heap) : Prop :=
  forall b, object_at (T:=T) h' b = object_at (T:=T) h b.

(** A reader that never panics. *)
Definition quiet {A} (r : R A) : Prop :=
  forall (h : Heap) v, r h <> Panic v.

(** The Type field of an envelope holds a nil pointer of one of the
    four variant types. *)
Definition nil_variant (t : isMessage_Type) : Prop :=
  t = Type_Request nil \/ t = Type_Reply nil \/
  t = Type_Prepare nil \/ t = Type_Commit nil.

(** The store [h'] differs from [h] at most in the object behind [m]. *)
Definition only_at {T} (m : ptr T) (h h' : Heap) : Prop :=
  forall b, m <> at_ b -> h' !! b = h !! b.

(** ** Sample store

    One message of each type, the Commit answering the Prepare. *)

Definition sample_Request_M : Request_M :=
  {| Request_M_ClientId := 1; Request_M_Timestamp := 5;
     Request_M_Operation := Some [Byte.x58] |}.

Definition sample_Request : Request :=
  {| Request_Msg := at_ 1%positive; Request_Signature := Some [Byte.xaa] |}.

Definition sample_Reply_M : Reply_M :=
  {| Reply_M_ClientId := 1; Reply_M_Result := Some [Byte.x59] |}.

Definition sample_Reply : Reply :=
  {| Reply_Msg := at_ 3%positive; Reply_Signature := None |}.

Definition sample_Prepare_M : Prepare_M :=
  {| Prepare_M_View := 4; Prepare_M_ReplicaId := 0;
     Prepare_M_Request := at_ 2%positive |}.

Definition sample_Prepare : Prepare :=
  {| Prepare_Msg := at_ 5%positive; Prepare_ReplicaUi := Some [Byte.x01] |}.

Definition sample_Commit_M : Commit_M :=
  {| Commit_M_View := 4; Commit_M_ReplicaId := 2; Commit_M_PrimaryId := 0;
     Commit_M_Request := at_ 2%positive;
     Commit_M_PrimaryUi := Some [Byte.x01] |}.

Definition sample_Commit : Commit :=
  {| Commit_Msg := at_ 7%positive; Commit_ReplicaUi := Some [Byte.x02] |}.

Definition sample_heap : Heap :=
  <[1%positive := O_Request_M sample_Request_M]>
  (<[2%positive := O_Request sample_Request]>
  (<[3%positive := O_Reply_M sample_Reply_M]>
  (<[4%positive := O_Reply sample_Reply]>
  (<[5%positive := O_Prepare_M sample_Prepare_M]>
  (<[6%positive := O_Prepare sample_Prepare]>
  (<[7%positive := O_Commit_M sample_Commit_M]>
  (<[8%positive := O_Commit sample_Commit]>
  (<[9%positive := O_Message {| Message_Type := Type_nil |}]>
  (<[10%positive := O_Message {| Message_Type := Type_other "Message_Hello" |}]>
   ∅))))))))).

(** The sample store with a second Commit for the same Prepare, written
    by another replica, an envelope around the Prepare and an envelope
    whose Type is a nil pointer of a variant type. *)
Definition sample_Commit_M_3 : Commit_M :=
  {| Commit_M_View := 4; Commit_M_ReplicaId := 3; Commit_M_PrimaryId := 0;
     Commit_M_Request := at_ 2%positive;
     Commit_M_PrimaryUi := Some [Byte.x01] |}.

Definition sample_Commit_3 : Commit :=
  {| Commit_Msg := at_ 14%positive; Commit_ReplicaUi := Some [Byte.x03] |}.

Definition sample_envelopes : Heap :=
  <[11%positive := O_Message_Prepare {| Message_Prepare_Prepare := at_ 6%positive |}]>
  (<[12%positive := O_Message {| Message_Type := Type_Prepare (at_ 11%positive) |}]>
  (<[13%positive := O_Message {| Message_Type := Type_Commit nil |}]>
  (<[14%positive := O_Commit_M sample_Commit_M_3]>
  (<[15%positive := O_Commit sample_Commit_3]>
   sample_heap)))).

(** A stand-in encoder: the client, view or replica number of the
    message read as one byte; a nil pointer is an error. *)
Definition byte_of_Z (z : Z) : Byte.byte :=
  default Byte.x00 (Byte.of_N (Z.to_N (z mod 256))).

Definition sample_Marshal (pb : proto_Message) : bytes * option error :=
  match pb with
  | pb_Request_M (Some v) => (Some [byte_of_Z (Request_M_ClientId v)], None)
  | pb_Reply_M (Some v) => (Some [byte_of_Z (Reply_M_ClientId v)], None)
  | pb_Prepare_M (Some v) =>
      (Some [byte_of_Z (pb_Prepare_M_View v); byte_of_Z (pb_Prepare_M_ReplicaId v)], None)
  | pb_Commit_M (Some v) =>
      (Some [byte_of_Z (pb_Commit_M_View v); byte_of_Z (pb_Commit_M_ReplicaId v)], None)
  | _ => (None, Some "proto: Marshal called with nil"%string)
  end.

(** ** Authentication roles (api/api.go) *)

(** [type AuthenticationRole int] *)
Definition AuthenticationRole : Type := Z.

(** [const ( ReplicaAuthen AuthenticationRole = 1 + iota; USIGAuthen;
    ClientAuthen )]: [iota] counts the lines of the block from 0. *)
Definition ReplicaAuthen : AuthenticationRole := 1 + 0.
Definition USIGAuthen : AuthenticationRole := 1 + 1.
Definition ClientAuthen : AuthenticationRole := 1 + 2.

(** [fmt.Sprintf("AuthenticationRole(%d)", r)]: the verb prints the
    integer in decimal, with a minus sign when it is negative. *)
Definition Sprintf_AuthenticationRole (r : Z) : string :=
  "AuthenticationRole(" +:+ pretty r +:+ ")".

(** [func (r AuthenticationRole) String() string] *)
Definition AuthenticationRole_String (r : AuthenticationRole) : string :=
  if decide (r = ReplicaAuthen) then "replica"
  else if decide (r = USIGAuthen) then "usig"
  else if decide (r = ClientAuthen) then "client"
  else Sprintf_AuthenticationRole r.

(** ** A pointer and what is behind it *)

(** [holds h p o]: the pointer is nil and [o] is nothing, or it holds
    the object [o]. Every pointer of a Go program is one or the other. *)
Definition holds {T} `{Stored T} (h : Heap) (p : ptr T) (o : option T) : Prop :=
  match o with
  | None => p = nil
  | Some v => points_to h p v
  end.

(** The message data of a Prepare, as the encoder is to receive it:
    nothing when the Prepare has no inner message; otherwise view,
    replica and the request, which is nothing when the request pointer
    is nil and otherwise the request's own inner message (if any) and
    its signature. The UI attached to the Prepare is no part of it. *)
Definition Prepare_message_data (opm : option Prepare_M) (orv : option Request)
    (orm : option Request_M) : proto_Message :=
  pb_Prepare_M
    (match opm with
     | None => None
     | Some pm =>
         Some {| pb_Prepare_M_View := Prepare_M_View pm;
                 pb_Prepare_M_ReplicaId := Prepare_M_ReplicaId pm;
                 pb_Prepare_M_Request :=
                   match orv with
                   | None => None
                   | Some rv =>
                       Some {| pb_Request_Msg := orm;
                               pb_Request_Signature := Request_Signature rv |}
                   end |}
     end).

(** A Prepare of view 5 by replica 1 for the sample request, and a
    Prepare without inner message. *)
Definition sample_Prepare_M_5 : Prepare_M :=
  {| Prepare_M_View := 5; Prepare_M_ReplicaId := 1;
     Prepare_M_Request := at_ 2%positive |}.

Definition sample_Prepare_5 : Prepare :=
  {| Prepare_Msg := at_ 21%positive; Prepare_ReplicaUi := Some [Byte.x0b] |}.

Definition sample_Prepare_empty : Prepare :=
  {| Prepare_Msg := nil; Prepare_ReplicaUi := Some [Byte.x0c] |}.

Definition sample_Prepares : Heap :=
  <[21%positive := O_Prepare_M sample_Prepare_M_5]>
  (<[22%positive := O_Prepare sample_Prepare_5]>
  (<[23%positive := O_Prepare sample_Prepare_empty]>
   sample_heap)).

(** A stand-in encoder that writes every field it is given, one after
    the other. Like [proto.Marshal] of the protobuf library it answers
    a nil message with the error "proto: Marshal called with nil". *)
Definition field_bytes (b : bytes) : list Byte.byte := default [] b.

Definition field_Request_M (v : Request_M) : list Byte.byte :=
  [byte_of_Z (Request_M_ClientId v); byte_of_Z (Request_M_Timestamp v)]
  ++ field_bytes (Request_M_Operation v).

Definition field_Request (v : Request_pb) : list Byte.byte :=
  from_option field_Request_M [] (pb_Request_Msg v)
  ++ field_bytes (pb_Request_Signature v).

Definition field_Marshal (pb : proto_Message) : bytes * option error :=
  match pb with
  | pb_Request_M (Some v) => (Some (field_Request_M v), None)
  | pb_Reply_M (Some v) =>
      (Some (byte_of_Z (Reply_M_ClientId v) :: field_bytes (Reply_M_Result v)), None)
  | pb_Prepare_M (Some v) =>
      (Some ([byte_of_Z (pb_Prepare_M_View v); byte_of_Z (pb_Prepare_M_ReplicaId v)]
             ++ from_option field_Request [] (pb_Prepare_M_Request v)), None)
  | pb_Commit_M (Some v) =>
      (Some ([byte_of_Z (pb_Commit_M_View v); byte_of_Z (pb_Commit_M_ReplicaId v);
              byte_of_Z (pb_Commit_M_PrimaryId v)]
             ++ from_option field_Request [] (pb_Commit_M_Request v)
             ++ field_bytes (pb_Commit_M_PrimaryUi v)), None)
  | _ => (None, Some "proto: Marshal called with nil"%string)
  end.

Section Messages.

(** The encoder of the protobuf library: the bytes and the error that
    [proto.Marshal] returns. *)
Variable proto_Marshal : proto_Message -> bytes * option error.

(** [mBytes, err := proto.Marshal(..); if err != nil { panic(err) };
    return mBytes] *)
Definition marshal_or_panic (pb : proto_Message) : R bytes :=
  let (mBytes, err) := proto_Marshal pb in
  match err with
  | Some e => panic (panic_error e)
  | None => ret mBytes
  end.

(** *** Request *)

Definition Request_ClientID (m : ptr Request) : R Z :=
  msg <- Request_GetMsg m ;; Request_M_GetClientId msg.

Definition Request_Payload (m : ptr Request) : R bytes :=
  msg <- Request_GetMsg m ;;
  pb <- walk_Request_M msg ;;
  marshal_or_panic (pb_Request_M pb).

Definition Request_SignatureBytes (m : ptr Request) : R bytes :=
  Request_GetSignature m.

Definition Request_AttachSignature (m : ptr Request) (signature : bytes) : M unit :=
  (v <- get (load m) ;;
  store m {| Request_Msg := Request_Msg v; Request_Signature := signature |})%go.

(** *** Reply *)

Definition Reply_Payload (m : ptr Reply) : R bytes :=
  msg <- Reply_GetMsg m ;;
  pb <- walk_Reply_M msg ;;
  marshal_or_panic (pb_Reply_M pb).

Definition Reply_SignatureBytes (m : ptr Reply) : R bytes :=
  Reply_GetSignature m.

Definition Reply_AttachSignature (m : ptr Reply) (signature : bytes) : M unit :=
  (v <- get (load m) ;;
  store m {| Reply_Msg := Reply_Msg v; Reply_Signature := signature |})%go.

(** *** Prepare *)

(** [m.Msg.GetReplicaId()]: the field [Msg] is read without a nil test. *)
Definition Prepare_ReplicaID (m : ptr Prepare) : R Z :=
  v <- load m ;; Prepare_M_GetReplicaId (Prepare_Msg v).

Definition Prepare_Payload (m : ptr Prepare) : R bytes :=
  msg <- Prepare_GetMsg m ;;
  pb <- walk_Prepare_M msg ;;
  marshal_or_panic (pb_Prepare_M pb).

Definition Prepare_UIBytes (m : ptr Prepare) : R bytes :=
  Prepare_GetReplicaUi m.

Definition Prepare_AttachUI (m : ptr Prepare) (ui : bytes) : M unit :=
  (v <- get (load m) ;;
  store m {| Prepare_Msg := Prepare_Msg v; Prepare_ReplicaUi := ui |})%go.

(** *** Commit *)

Definition Commit_ReplicaID (m : ptr Commit) : R Z :=
  v <- load m ;; Commit_M_GetReplicaId (Commit_Msg v).

Definition Commit_Payload (m : ptr Commit) : R bytes :=
  msg <- Commit_GetMsg m ;;
  pb <- walk_Commit_M msg ;;
  marshal_or_panic (pb_Commit_M pb).

Definition Commit_UIBytes (m : ptr Commit) : R bytes :=
  Commit_GetReplicaUi m.

Definition Commit_AttachUI (m : ptr Commit) (ui : bytes) : M unit :=
  (v <- get (load m) ;;
  store m {| Commit_Msg := Commit_Msg v; Commit_ReplicaUi := ui |})%go.

(** [Commit.Prepare]: the fields of the composite literal are evaluated
    in order, the inner literal is allocated before the outer one. *)
Definition Commit_Prepare (m : ptr Commit) : M (ptr Prepare) :=
  (msg <- get (Commit_GetMsg m) ;;
  view <- get (Commit_M_GetView msg) ;;
  primary <- get (Commit_M_GetPrimaryId msg) ;;
  request <- get (Commit_M_GetRequest msg) ;;
  inner <- new {| Prepare_M_View := view;
                  Prepare_M_ReplicaId := primary;
                  Prepare_M_Request := request |} ;;
  ui <- get (Commit_M_GetPrimaryUi msg) ;;
  new {| Prepare_Msg := inner; Prepare_ReplicaUi := ui |})%go.

Definition Commit_Request (m : ptr Commit) : R (ptr Request) :=
  msg <- Commit_GetMsg m ;; Commit_M_GetRequest msg.

(** *** The envelope *)

Definition WrapMessage (m : any) : M (ptr Message) :=
  (match m with
  | any_Request m =>
      t <- new {| Message_Request_Request := m |} ;;
      new {| Message_Type := Type_Request t |}
  | any_Reply m =>
      t <- new {| Message_Reply_Reply := m |} ;;
      new {| Message_Type := Type_Reply t |}
  | any_Prepare m =>
      t <- new {| Message_Prepare_Prepare := m |} ;;
      new {| Message_Type := Type_Prepare t |}
  | any_Commit m =>
      t <- new {| Message_Commit_Commit := m |} ;;
      new {| Message_Type := Type_Commit t |}
  | _ => get (panic (panic_string "Unknown message type"))
  end)%go.

Definition UnwrapMessage (m : ptr Message) : R any :=
  v <- load m ;;
  match Message_Type v with
  | Type_Request t => w <- load t ;; ret (any_Request (Message_Request_Request w))
  | Type_Reply t => w <- load t ;; ret (any_Reply (Message_Reply_Reply w))
  | Type_Prepare t => w <- load t ;; ret (any_Prepare (Message_Prepare_Prepare w))
  | Type_Commit t => w <- load t ;; ret (any_Commit (Message_Commit_Commit w))
  | _ => panic (panic_string "Unknown message type")
  end.

(** *** The interface assertions of messages.go *)

#[local] Instance Request_ClientMessage : ClientMessage Request :=
  {| ClientID := Request_ClientID |}.

#[local] Instance Prepare_MessageWithUI : MessageWithUI Prepare :=
  {| ReplicaID := Prepare_ReplicaID; UIPayload := Prepare_Payload;
     UIBytes := Prepare_UIBytes; AttachUI := Prepare_AttachUI |}.

#[local] Instance Commit_MessageWithUI : MessageWithUI Commit :=
  {| ReplicaID := Commit_ReplicaID; UIPayload := Commit_Payload;
     UIBytes := Commit_UIBytes; AttachUI := Commit_AttachUI |}.

#[local] Instance Request_MessageWithSignature : MessageWithSignature Request :=
  {| SigPayload := Request_Payload; SignatureBytes := Request_SignatureBytes;
     AttachSignature := Request_AttachSignature |}.

#[local] Instance Reply_MessageWithSignature : MessageWithSignature Reply :=
  {| SigPayload := Reply_Payload; SignatureBytes := Reply_SignatureBytes;
     AttachSignature := Reply_AttachSignature |}.

(** ** Laws of the two tagged interfaces *)

(** Attaching a tag and reading it back. *)
Definition signature_round_trip (T : Type) `{Stored T} `{MessageWithSignature T} : Prop :=
  forall (h : Heap) (m : ptr T) (v : T) (s : bytes),
    points_to h m v ->
    exists h', AttachSignature m s h = Ok (tt, h') /\ SignatureBytes m h' = Ok s.

Definition ui_round_trip (T : Type) `{Stored T} `{MessageWithUI T} : Prop :=
  forall (h : Heap) (m : ptr T) (v : T) (ui : bytes),
    points_to h m v ->
    exists h', AttachUI m ui h = Ok (tt, h') /\ UIBytes m h' = Ok ui.

(** Attaching a tag changes the store at the message only, keeps the
    message's other field ([rest]), and no other method of the
    interface sees the change. *)
Definition signature_frame (T : Type) `{Stored T} `{MessageWithSignature T}
    {A} (rest : T -> A) : Prop :=
  forall (h : Heap) (m : ptr T) (v : T) (s : bytes),
    points_to h m v ->
    exists h' v', AttachSignature m s h = Ok (tt, h') /\
                  points_to h' m v' /\ rest v' = rest v /\
                  only_at m h h' /\
                  SigPayload m h' = SigPayload m h.

Definition ui_frame (T : Type) `{Stored T} `{MessageWithUI T}
    {A} (rest : T -> A) : Prop :=
  forall (h : Heap) (m : ptr T) (v : T) (ui : bytes),
    points_to h m v ->
    exists h' v', AttachUI m ui h = Ok (tt, h') /\
                  points_to h' m v' /\ rest v' = rest v /\
                  only_at m h h' /\
                  UIPayload m h' = UIPayload m h /\
                  ReplicaID m h' = ReplicaID m h.

Definition client_frame (T : Type) `{Stored T} `{ClientMessage T}
    `{MessageWithSignature T} : Prop :=
  forall (h : Heap) (m : ptr T) (v : T) (s : bytes),
    points_to h m v ->
    exists h', AttachSignature m s h = Ok (tt, h') /\
               ClientID m h' = ClientID m h.

(** Every accessor of the package that has an outcome in [h] has the
    same outcome in [h']. *)
Definition accessors_agree (h h' : Heap) : Prop :=
  (forall q, Request_ClientID q h <> Stray -> Request_ClientID q h' = Request_ClientID q h) /\
  (forall q, Request_Payload q h <> Stray -> Request_Payload q h' = Request_Payload q h) /\
  (forall q, Request_SignatureBytes q h <> Stray ->
             Request_SignatureBytes q h' = Request_SignatureBytes q h) /\
  (forall q, Reply_Payload q h <> Stray -> Reply_Payload q h' = Reply_Payload q h) /\
  (forall q, Reply_SignatureBytes q h <> Stray ->
             Reply_SignatureBytes q h' = Reply_SignatureBytes q h) /\
  (forall q, Prepare_ReplicaID q h <> Stray -> Prepare_ReplicaID q h' = Prepare_ReplicaID q h) /\
  (forall q, Prepare_Payload q h <> Stray -> Prepare_Payload q h' = Prepare_Payload q h) /\
  (forall q, Prepare_UIBytes q h <> Stray -> Prepare_UIBytes q h' = Prepare_UIBytes q h) /\
  (forall q, Commit_ReplicaID q h <> Stray -> Commit_ReplicaID q h' = Commit_ReplicaID q h) /\
  (forall q, Commit_Payload q h <> Stray -> Commit_Payload q h' = Commit_Payload q h) /\
  (forall q, Commit_UIBytes q h <> Stray -> Commit_UIBytes q h' = Commit_UIBytes q h) /\
  (forall q, Commit_Request q h <> Stray -> Commit_Request q h' = Commit_Request q h) /\
  (forall q, UnwrapMessage q h <> Stray -> UnwrapMessage q h' = UnwrapMessage q h).

(** An outcome of Payload that comes from the encoder: bytes it returned
    without an error, or a panic with the error it returned. *)
Definition Marshal_outcome {X} (arg : option X -> proto_Message)
    (r : result bytes) : Prop :=
  match r with
  | Ok b => exists pb, proto_Marshal (arg pb) = (b, None)
  | Panic v => exists pb b e, v = panic_error e /\ proto_Marshal (arg pb) = (b, Some e)
  | Stray => True
  end.

(** [Payload_is r arg]: the outcome [r] is what the encoder makes of
    [arg]: its bytes when it reports no error, a panic with its error
    when it reports one. *)
Definition Payload_is (r : result bytes) (arg : proto_Message) : Prop :=
  (forall b, proto_Marshal arg = (b, None) -> r = Ok b) /\
  (forall b e, proto_Marshal arg = (b, Some e) -> r = Panic (panic_error e)).

(** ** Store lemmas *)

Lemma object_at_to_object {T} `{Stored T} (h : Heap) a (v : T) :
  h !! a = Some (to_object v) -> object_at h a = Some v.
Proof. unfold object_at. intros ->. simpl. apply of_to_object. Qed.

Lemma object_at_insert_eq {T} `{Stored T} (h : Heap) a (v : T) :
  object_at (<[a := to_object v]> h) a = Some v.
Proof. apply object_at_to_object, lookup_insert_eq. Qed.

Lemma object_at_insert_ne {T} `{Stored T} (h : Heap) a b o :
  a <> b -> object_at (T:=T) (<[a := o]> h) b = object_at h b.
Proof. intros Hne. unfold object_at. by rewrite lookup_insert_ne. Qed.

(** Overwriting an object of type [U] is invisible to reads at any
    other type. *)
Lemma object_at_insert_apart {T U} `{Apart T U} (h : Heap) a b (u u' : U) :
  h !! a = Some (to_object u) ->
  object_at (T:=T) (<[a := to_object u']> h) b = object_at (T:=T) h b.
Proof.
  intros Ha. destruct (decide (a = b)) as [<-|Hne].
  - unfold object_at. rewrite lookup_insert_eq, Ha. simpl. by rewrite !apart.
  - by apply object_at_insert_ne.
Qed.

Lemma load_points_to {T} `{Stored T} (h : Heap) (p : ptr T) v :
  points_to h p v -> load p h = Ok v.
Proof.
  intros (a & -> & Ha). unfold load. by rewrite (object_at_to_object _ _ _ Ha).
Qed.

Lemma getter_points_to {T A} `{Stored T} (f : T -> A) z (h : Heap) (p : ptr T) v :
  points_to h p v -> getter f z p h = Ok (f v).
Proof.
  intros Hp. pose proof (load_points_to _ _ _ Hp) as Hl.
  destruct Hp as (a & -> & _). unfold getter, bind. by rewrite Hl.
Qed.

Lemma store_points_to {T} `{Stored T} (h : Heap) a (v w : T) :
  h !! a = Some (to_object v) ->
  store (at_ a) w h = Ok (tt, <[a := to_object w]> h).
Proof.
  intros Ha. unfold store. by rewrite (object_at_to_object _ _ _ Ha).
Qed.

Lemma new_fresh {T} `{Stored T} (h : Heap) (v : T) :
  exists a, new v h = Ok (at_ a, <[a := to_object v]> h) /\ h !! a = None.
Proof.
  exists (fresh (dom h)). split; [done|].
  apply not_elem_of_dom, is_fresh.
Qed.

(** Reads at a type are blind to the overwriting of an object of
    another type. *)
Section Overwrite.
Context {T U : Type} `{Apart T U}.
Variables (h : Heap) (a : addr) (u u' : U).
Hypothesis Ha : h !! a = Some (to_object u).

Lemma load_insert_apart (p : ptr T) :
  load p (<[a := to_object u']> h) = load p h.
Proof.
  destruct p as [|b]; [done|]. unfold load.
  by rewrite (object_at_insert_apart h a b u u' Ha).
Qed.

Lemma getter_insert_apart {A} (f : T -> A) z (p : ptr T) :
  getter f z p (<[a := to_object u']> h) = getter f z p h.
Proof.
  destruct p as [|b]; [done|]. unfold getter, bind.
  by rewrite load_insert_apart.
Qed.

Lemma walk_insert_apart {A} (inner : T -> R A) (p : ptr T) :
  (forall v, inner v (<[a := to_object u']> h) = inner v h) ->
  walk inner p (<[a := to_object u']> h) = walk inner p h.
Proof.
  intros Hin. destruct p as [|b]; [done|]. unfold walk, bind.
  rewrite load_insert_apart. destruct (load (at_ b) h); [|done..].
  by rewrite Hin.
Qed.

End Overwrite.

Lemma walk_Request_M_insert_apart {U} `{Stored U} `{!Apart Request_M U}
    (h : Heap) a (u u' : U) p :
  h !! a = Some (to_object u) ->
  walk_Request_M p (<[a := to_object u']> h) = walk_Request_M p h.
Proof. intros Ha. by apply (walk_insert_apart h a u u' Ha). Qed.

Lemma walk_Reply_M_insert_apart {U} `{Stored U} `{!Apart Reply_M U}
    (h : Heap) a (u u' : U) p :
  h !! a = Some (to_object u) ->
  walk_Reply_M p (<[a := to_object u']> h) = walk_Reply_M p h.
Proof. intros Ha. by apply (walk_insert_apart h a u u' Ha). Qed.

Lemma walk_Request_insert_apart {U} `{Stored U}
    `{!Apart Request_M U} `{!Apart Request U} (h : Heap) a (u u' : U) p :
  h !! a = Some (to_object u) ->
  walk_Request p (<[a := to_object u']> h) = walk_Request p h.
Proof.
  intros Ha. apply (walk_insert_apart h a u u' Ha). intros v.
  unfold bind. by rewrite (walk_Request_M_insert_apart h a u u' _ Ha).
Qed.

Lemma walk_Prepare_M_insert_apart {U} `{Stored U}
    `{!Apart Request_M U} `{!Apart Request U} `{!Apart Prepare_M U}
    (h : Heap) a (u u' : U) p :
  h !! a = Some (to_object u) ->
  walk_Prepare_M p (<[a := to_object u']> h) = walk_Prepare_M p h.
Proof.
  intros Ha. apply (walk_insert_apart h a u u' Ha). intros v.
  unfold bind. by rewrite (walk_Request_insert_apart h a u u' _ Ha).
Qed.

Lemma walk_Commit_M_insert_apart {U} `{Stored U}
    `{!Apart Request_M U} `{!Apart Request U} `{!Apart Commit_M U}
    (h : Heap) a (u u' : U) p :
  h !! a = Some (to_object u) ->
  walk_Commit_M p (<[a := to_object u']> h) = walk_Commit_M p h.
Proof.
  intros Ha. apply (walk_insert_apart h a u u' Ha). intros v.
  unfold bind. by rewrite (walk_Request_insert_apart h a u u' _ Ha).
Qed.

(** ** Attaching a signature or a UI *)

Lemma only_at_insert {T} (h : Heap) a o : only_at (@at_ T a) h (<[a := o]> h).
Proof. intros b Hb. apply lookup_insert_ne. congruence. Qed.

Lemma Request_AttachSignature_run (h : Heap) a v s :
  h !! a = Some (to_object v) ->
  Request_AttachSignature (at_ a) s h =
    Ok (tt, <[a := to_object {| Request_Msg := Request_Msg v;
                                Request_Signature := s |}]> h).
Proof.
  intros Ha. unfold Request_AttachSignature, mbind, get.
  rewrite (load_points_to h (at_ a) v) by (by exists a).
  exact (store_points_to h a v _ Ha).
Qed.

Lemma Reply_AttachSignature_run (h : Heap) a v s :
  h !! a = Some (to_object v) ->
  Reply_AttachSignature (at_ a) s h =
    Ok (tt, <[a := to_object {| Reply_Msg := Reply_Msg v;
                              Reply_Signature := s |}]> h).
Proof.
  intros Ha. unfold Reply_AttachSignature, mbind, get.
  rewrite (load_points_to h (at_ a) v) by (by exists a).
  exact (store_points_to h a v _ Ha).
Qed.

Lemma Prepare_AttachUI_run (h : Heap) a v ui :
  h !! a = Some (to_object v) ->
  Prepare_AttachUI (at_ a) ui h =
    Ok (tt, <[a := to_object {| Prepare_Msg := Prepare_Msg v;
                                Prepare_ReplicaUi := ui |}]> h).
Proof.
  intros Ha. unfold Prepare_AttachUI, mbind, get.
  rewrite (load_points_to h (at_ a) v) by (by exists a).
  exact (store_points_to h a v _ Ha).
Qed.

Lemma Commit_AttachUI_run (h : Heap) a v ui :
  h !! a = Some (to_object v) ->
  Commit_AttachUI (at_ a) ui h =
    Ok (tt, <[a := to_object {| Commit_Msg := Commit_Msg v;
                               Commit_ReplicaUi := ui |}]> h).
Proof.
  intros Ha. unfold Commit_AttachUI, mbind, get.
  rewrite (load_points_to h (at_ a) v) by (by exists a).
  exact (store_points_to h a v _ Ha).
Qed.

(** On a nil receiver the assignment to the field panics. *)
Lemma attach_nil_panics (h : Heap) (tag : bytes) :
  Request_AttachSignature nil tag h = Panic nil_dereference /\
  Reply_AttachSignature nil tag h = Panic nil_dereference /\
  Prepare_AttachUI nil tag h = Panic nil_dereference /\
  Commit_AttachUI nil tag h = Panic nil_dereference.
Proof. by repeat split. Qed.

Lemma points_to_insert {T} `{Stored T} (h : Heap) a (v : T) :
  points_to (<[a := to_object v]> h) (at_ a) v.
Proof. exists a. split; [done | apply lookup_insert_eq]. Qed.

Lemma Request_round_trip : signature_round_trip Request.
Proof.
  intros h m v s (a & -> & Ha). eexists. split.
  - exact (Request_AttachSignature_run h a v s Ha).
  - exact (getter_points_to Request_Signature None _ _ _ (points_to_insert h a _)).
Qed.

Lemma Reply_round_trip : signature_round_trip Reply.
Proof.
  intros h m v s (a & -> & Ha). eexists. split.
  - exact (Reply_AttachSignature_run h a v s Ha).
  - exact (getter_points_to Reply_Signature None _ _ _ (points_to_insert h a _)).
Qed.

Lemma Prepare_round_trip : ui_round_trip Prepare.
Proof.
  intros h m v s (a & -> & Ha). eexists. split.
  - exact (Prepare_AttachUI_run h a v s Ha).
  - exact (getter_points_to Prepare_ReplicaUi None _ _ _ (points_to_insert h a _)).
Qed.

Lemma Commit_round_trip : ui_round_trip Commit.
Proof.
  intros h m v s (a & -> & Ha). eexists. split.
  - exact (Commit_AttachUI_run h a v s Ha).
  - exact (getter_points_to Commit_ReplicaUi None _ _ _ (points_to_insert h a _)).
Qed.

(** ** What attaching leaves alone *)

(** The encoder does not look at the store. *)
Lemma marshal_or_panic_pure pb (h h' : Heap) :
  marshal_or_panic pb h = marshal_or_panic pb h'.
Proof. unfold marshal_or_panic. by destruct (proto_Marshal pb) as [b [e|]]. Qed.

Ltac same_walk :=
  match goal with
  | |- match ?r with _ => _ end = _ =>
      destruct r; [apply marshal_or_panic_pure | done..]
  end.

Lemma Request_signature_frame : signature_frame Request Request_Msg.
Proof.
  intros h m v s (a & -> & Ha). eexists. eexists.
  split; [exact (Request_AttachSignature_run h a v s Ha)|].
  split; [apply points_to_insert|]. split; [done|].
  split; [apply only_at_insert|].
  cbn [SigPayload Request_MessageWithSignature].
  unfold Request_Payload, bind, Request_GetMsg.
  rewrite (getter_points_to Request_Msg nil _ _ _ (points_to_insert h a _)).
  rewrite (getter_points_to Request_Msg nil h (at_ a) v) by (by exists a).
  cbn [Request_Msg].
  rewrite (walk_Request_M_insert_apart (U:=Request) h a v _ _ Ha). same_walk.
Qed.

Lemma Request_client_frame : client_frame Request.
Proof.
  intros h m v s (a & -> & Ha). eexists.
  split; [exact (Request_AttachSignature_run h a v s Ha)|].
  cbn [ClientID Request_ClientMessage].
  unfold Request_ClientID, bind, Request_GetMsg.
  rewrite (getter_points_to Request_Msg nil _ _ _ (points_to_insert h a _)).
  rewrite (getter_points_to Request_Msg nil h (at_ a) v) by (by exists a).
  cbn [Request_Msg].
  exact (getter_insert_apart (T:=Request_M) (U:=Request) h a v _ Ha _ _ _).
Qed.

Lemma Reply_signature_frame : signature_frame Reply Reply_Msg.
Proof.
  intros h m v s (a & -> & Ha). eexists. eexists.
  split; [exact (Reply_AttachSignature_run h a v s Ha)|].
  split; [apply points_to_insert|]. split; [done|].
  split; [apply only_at_insert|].
  cbn [SigPayload Reply_MessageWithSignature].
  unfold Reply_Payload, bind, Reply_GetMsg.
  rewrite (getter_points_to Reply_Msg nil _ _ _ (points_to_insert h a _)).
  rewrite (getter_points_to Reply_Msg nil h (at_ a) v) by (by exists a).
  cbn [Reply_Msg].
  rewrite (walk_Reply_M_insert_apart (U:=Reply) h a v _ _ Ha). same_walk.
Qed.

Lemma Prepare_ui_frame : ui_frame Prepare Prepare_Msg.
Proof.
  intros h m v ui (a & -> & Ha). eexists. eexists.
  split; [exact (Prepare_AttachUI_run h a v ui Ha)|].
  split; [apply points_to_insert|]. split; [done|].
  split; [apply only_at_insert|].
  cbn [UIPayload ReplicaID Prepare_MessageWithUI]. split.
  - unfold Prepare_Payload, bind, Prepare_GetMsg.
    rewrite (getter_points_to Prepare_Msg nil _ _ _ (points_to_insert h a _)).
    rewrite (getter_points_to Prepare_Msg nil h (at_ a) v) by (by exists a).
    cbn [Prepare_Msg].
    rewrite (walk_Prepare_M_insert_apart (U:=Prepare) h a v _ _ Ha). same_walk.
  - unfold Prepare_ReplicaID, bind.
    rewrite (load_points_to _ _ _ (points_to_insert h a _)).
    rewrite (load_points_to h (at_ a) v) by (by exists a).
    cbn [Prepare_Msg].
    exact (getter_insert_apart (T:=Prepare_M) (U:=Prepare) h a v _ Ha _ _ _).
Qed.

Lemma Commit_ui_frame : ui_frame Commit Commit_Msg.
Proof.
  intros h m v ui (a & -> & Ha). eexists. eexists.
  split; [exact (Commit_AttachUI_run h a v ui Ha)|].
  split; [apply points_to_insert|]. split; [done|].
  split; [apply only_at_insert|].
  cbn [UIPayload ReplicaID Commit_MessageWithUI]. split.
  - unfold Commit_Payload, bind, Commit_GetMsg.
    rewrite (getter_points_to Commit_Msg nil _ _ _ (points_to_insert h a _)).
    rewrite (getter_points_to Commit_Msg nil h (at_ a) v) by (by exists a).
    cbn [Commit_Msg].
    rewrite (walk_Commit_M_insert_apart (U:=Commit) h a v _ _ Ha). same_walk.
  - unfold Commit_ReplicaID, bind.
    rewrite (load_points_to _ _ _ (points_to_insert h a _)).
    rewrite (load_points_to h (at_ a) v) by (by exists a).
    cbn [Commit_Msg].
    exact (getter_insert_apart (T:=Commit_M) (U:=Commit) h a v _ Ha _ _ _).
Qed.

(** C10. AttachSignature on a Request or a Reply in the store, and
    AttachUI on a Prepare or a Commit in the store, succeed, change the
    store at that message only, keep its Msg field, and leave the
    results of Payload (and ClientID for a Request, ReplicaID for a
    Prepare or a Commit) as they were. *)
Theorem attach_frame :
  signature_frame Request Request_Msg /\ client_frame Request /\
  signature_frame Reply Reply_Msg /\
  ui_frame Prepare Prepare_Msg /\ ui_frame Commit Commit_Msg.
Proof.
  split; [exact Request_signature_frame|].
  split; [exact Request_client_frame|].
  split; [exact Reply_signature_frame|].
  split; [exact Prepare_ui_frame | exact Commit_ui_frame].
Qed.

(** C9. For a Request or a Reply in the store, AttachSignature followed
    by SignatureBytes returns the attached signature; for a Prepare or a
    Commit in the store, AttachUI followed by UIBytes returns the
    attached UI. Both calls succeed. *)
Theorem attach_round_trip :
  signature_round_trip Request /\ signature_round_trip Reply /\
  ui_round_trip Prepare /\ ui_round_trip Commit.
Proof.
  split; [exact Request_round_trip|].
  split; [exact Reply_round_trip|].
  split; [exact Prepare_round_trip | exact Commit_round_trip].
Qed.

(** ** The envelope *)

Lemma points_to_insert_ne {T} `{Stored T} (h : Heap) a b o (v : T) :
  a <> b -> points_to h (at_ a) v -> points_to (<[b := o]> h) (at_ a) v.
Proof.
  intros Hne (a' & [= <-] & Ha). exists a. split; [done|].
  by rewrite lookup_insert_ne.
Qed.

(** Two allocations in a row, the second object holding the pointer to
    the first: both objects are in the final store, at addresses that
    were not in use, and the store only grew. *)
Lemma new_then_new {T U} `{Stored T} `{Stored U} (h : Heap) (v : T) (k : ptr T -> U) :
  exists a b h',
    mbind (new v) (fun t => new (k t)) h = Ok (at_ b, h') /\
    points_to h' (at_ a) v /\
    points_to h' (at_ b) (k (at_ a)) /\
    h !! a = None /\ h !! b = None /\ h ⊆ h'.
Proof.
  destruct (new_fresh h v) as (a & Hnew & Ha).
  destruct (new_fresh (<[a := to_object v]> h) (k (at_ a))) as (b & Hnew' & Hb).
  assert (a <> b) as Hne.
  { intros <-. by rewrite lookup_insert_eq in Hb. }
  exists a, b, (<[b := to_object (k (at_ a))]> (<[a := to_object v]> h)).
  split; [unfold mbind; rewrite Hnew; exact Hnew'|].
  split; [apply points_to_insert_ne, points_to_insert; congruence|].
  split; [apply points_to_insert|].
  split; [done|].
  split; [by rewrite lookup_insert_ne in Hb|].
  etrans; [apply (insert_subseteq h a (to_object v) Ha)|].
  by apply insert_subseteq.
Qed.

(** C2. For a message of one of the four concrete types, WrapMessage
    succeeds and UnwrapMessage of the envelope returns the very value
    that was wrapped (the same pointer); the envelope carries the tag of
    the message's own type, so the four types get four different tags;
    no object that was in the store is changed. *)
Theorem WrapMessage_UnwrapMessage (h : Heap) (m : any) (k : kind) :
  kind_of m = Some k ->
  exists e h',
    WrapMessage m h = Ok (e, h') /\
    UnwrapMessage e h' = Ok m /\
    envelope_tag e h' = Ok (Some k) /\
    h ⊆ h'.
Proof.
  intros Hk.
  destruct m as [|m|m|m|m|dyn]; simplify_eq/=.
  - destruct (new_then_new h {| Message_Request_Request := m |}
                (fun t => {| Message_Type := Type_Request t |}))
      as (a & b & h' & Hrun & Ha & Hb & _ & _ & Hsub).
    exists (at_ b), h'. split; [exact Hrun|].
    unfold UnwrapMessage, envelope_tag, bind.
    rewrite (load_points_to _ _ _ Hb). cbn [Message_Type tag_of].
    by rewrite (load_points_to _ _ _ Ha).
  - destruct (new_then_new h {| Message_Reply_Reply := m |}
                (fun t => {| Message_Type := Type_Reply t |}))
      as (a & b & h' & Hrun & Ha & Hb & _ & _ & Hsub).
    exists (at_ b), h'. split; [exact Hrun|].
    unfold UnwrapMessage, envelope_tag, bind.
    rewrite (load_points_to _ _ _ Hb). cbn [Message_Type tag_of].
    by rewrite (load_points_to _ _ _ Ha).
  - destruct (new_then_new h {| Message_Prepare_Prepare := m |}
                (fun t => {| Message_Type := Type_Prepare t |}))
      as (a & b & h' & Hrun & Ha & Hb & _ & _ & Hsub).
    exists (at_ b), h'. split; [exact Hrun|].
    unfold UnwrapMessage, envelope_tag, bind.
    rewrite (load_points_to _ _ _ Hb). cbn [Message_Type tag_of].
    by rewrite (load_points_to _ _ _ Ha).
  - destruct (new_then_new h {| Message_Commit_Commit := m |}
                (fun t => {| Message_Type := Type_Commit t |}))
      as (a & b & h' & Hrun & Ha & Hb & _ & _ & Hsub).
    exists (at_ b), h'. split; [exact Hrun|].
    unfold UnwrapMessage, envelope_tag, bind.
    rewrite (load_points_to _ _ _ Hb). cbn [Message_Type tag_of].
    by rewrite (load_points_to _ _ _ Ha).
Qed.

(** C3. WrapMessage of a value that is none of the four pointer types
    panics with "Unknown message type" and returns no envelope;
    UnwrapMessage of an envelope whose Type is none of the four variants
    panics with the same message and returns no value. *)
Theorem unknown_variant_panics :
  (forall (h : Heap) (m : any),
     kind_of m = None ->
     WrapMessage m h = Panic (panic_string "Unknown message type")) /\
  (forall (h : Heap) (e : ptr Message) (v : Message),
     points_to h e v ->
     tag_of (Message_Type v) = None ->
     UnwrapMessage e h = Panic (panic_string "Unknown message type")).
Proof.
  split.
  - intros h [|m|m|m|m|dyn] Hk; simplify_eq/=; reflexivity.
  - intros h e v He Ht. unfold UnwrapMessage, bind.
    rewrite (load_points_to _ _ _ He).
    destruct (Message_Type v); simplify_eq/=; reflexivity.
Qed.

(** ** Readers and the growth of the store *)

Lemma mono_ret {A} (a : A) : mono (ret a).
Proof. by intros h h' x _ H. Qed.

Lemma mono_bind {A B} (r : R A) (k : A -> R B) :
  mono r -> (forall a, mono (k a)) -> mono (bind r k).
Proof.
  intros Hr Hk h h' x Hsub. unfold bind.
  destruct (r h) as [a| |] eqn:E; [|done..].
  rewrite (Hr h h' a Hsub E). by apply Hk.
Qed.

Lemma mono_load {T} `{Stored T} (p : ptr T) : mono (load p).
Proof.
  intros h h' x Hsub. destruct p as [|a]; [done|]. unfold load, object_at.
  destruct (h !! a) as [o|] eqn:E; [|done].
  by rewrite (lookup_weaken h h' a o E Hsub).
Qed.

Lemma mono_getter {T A} `{Stored T} (f : T -> A) z (p : ptr T) :
  mono (getter f z p).
Proof.
  destruct p as [|a]; [apply mono_ret|].
  apply mono_bind; [apply mono_load | intros; apply mono_ret].
Qed.

Create HintDb mono.
#[local] Hint Resolve mono_ret mono_bind mono_load mono_getter : mono.

Lemma mono_Commit_content c : mono (Commit_content c).
Proof.
  unfold Commit_content, Commit_GetMsg, Commit_M_GetView, Commit_M_GetPrimaryId,
    Commit_M_GetRequest, Commit_M_GetPrimaryUi.
  auto 20 with mono.
Qed.

Lemma mono_Commit_Request c : mono (Commit_Request c).
Proof. unfold Commit_Request, Commit_GetMsg, Commit_M_GetRequest. auto with mono. Qed.

Lemma points_to_weaken {T} `{Stored T} (h h' : Heap) (p : ptr T) v :
  h ⊆ h' -> points_to h p v -> points_to h' p v.
Proof.
  intros Hsub (a & -> & Ha). exists a. split; [done|].
  exact (lookup_weaken h h' a _ Ha Hsub).
Qed.

(** Payload of a Prepare whose inner message is in the store: the
    encoding of view, replica and the request behind the pointer. *)
Lemma Prepare_Payload_points_to (h : Heap) (p : ptr Prepare) pv pm :
  points_to h p pv ->
  points_to h (Prepare_Msg pv) pm ->
  Prepare_Payload p h =
    bind (walk_Request (Prepare_M_Request pm))
      (fun request =>
         marshal_or_panic
           (pb_Prepare_M (Some {| pb_Prepare_M_View := Prepare_M_View pm;
                                  pb_Prepare_M_ReplicaId := Prepare_M_ReplicaId pm;
                                  pb_Prepare_M_Request := request |}))) h.
Proof.
  intros Hp Hm. unfold Prepare_Payload, bind, Prepare_GetMsg.
  rewrite (getter_points_to Prepare_Msg nil _ _ _ Hp).
  destruct Hm as (b & -> & Hb). unfold walk_Prepare_M, walk, bind.
  rewrite (load_points_to h (at_ b) pm) by (by exists b).
  by destruct (walk_Request (Prepare_M_Request pm) h).
Qed.

(** What the getters return on a Prepare that is in the store with its
    inner message. *)
Lemma Prepare_content_points_to (h : Heap) (p : ptr Prepare) pv pm :
  points_to h p pv ->
  points_to h (Prepare_Msg pv) pm ->
  Prepare_content p h =
    Ok (Prepare_M_View pm, Prepare_M_ReplicaId pm, Prepare_M_Request pm,
        Prepare_ReplicaUi pv).
Proof.
  intros Hp Hm.
  unfold Prepare_content, bind, Prepare_GetMsg, Prepare_M_GetView,
    Prepare_M_GetReplicaId, Prepare_M_GetRequest, Prepare_GetReplicaUi.
  rewrite (getter_points_to Prepare_Msg nil _ _ _ Hp).
  rewrite (getter_points_to Prepare_M_View 0 _ _ _ Hm).
  rewrite (getter_points_to Prepare_M_ReplicaId 0 _ _ _ Hm).
  rewrite (getter_points_to Prepare_M_Request nil _ _ _ Hm).
  by rewrite (getter_points_to Prepare_ReplicaUi None _ _ _ Hp).
Qed.

(** Two Prepares in one store with the same content have the same
    payload and the same UI. *)
Lemma Prepare_same_content (h : Heap) (p p0 : ptr Prepare) pv pm pv0 pm0 :
  points_to h p pv -> points_to h (Prepare_Msg pv) pm ->
  points_to h p0 pv0 -> points_to h (Prepare_Msg pv0) pm0 ->
  Prepare_content p h = Prepare_content p0 h ->
  Prepare_Payload p h = Prepare_Payload p0 h /\
  Prepare_UIBytes p h = Prepare_UIBytes p0 h.
Proof.
  intros Hp Hm Hp0 Hm0.
  rewrite (Prepare_content_points_to h p pv pm Hp Hm).
  rewrite (Prepare_content_points_to h p0 pv0 pm0 Hp0 Hm0).
  intros [= Hview Hid Hreq Hui]. split.
  - rewrite (Prepare_Payload_points_to h p pv pm Hp Hm).
    rewrite (Prepare_Payload_points_to h p0 pv0 pm0 Hp0 Hm0).
    by rewrite Hview, Hid, Hreq.
  - unfold Prepare_UIBytes, Prepare_GetReplicaUi.
    rewrite (getter_points_to Prepare_ReplicaUi None _ _ _ Hp).
    rewrite (getter_points_to Prepare_ReplicaUi None _ _ _ Hp0).
    by rewrite Hui.
Qed.

(** ** The Prepare inside a Commit *)

(** The getters of a Commit's inner message succeed when the pointer to
    it is nil or holds a message. *)
Lemma Commit_M_getters (h : Heap) (msg : ptr Commit_M) :
  valid h msg ->
  exists view primary request ui,
    Commit_M_GetView msg h = Ok view /\
    Commit_M_GetPrimaryId msg h = Ok primary /\
    Commit_M_GetRequest msg h = Ok request /\
    Commit_M_GetPrimaryUi msg h = Ok ui.
Proof.
  intros [-> | (cm & Hcm)].
  - by exists 0, 0, nil, None.
  - exists (Commit_M_View cm), (Commit_M_PrimaryId cm),
      (Commit_M_Request cm), (Commit_M_PrimaryUi cm).
    repeat split; by apply getter_points_to.
Qed.

Lemma Commit_Prepare_run (h : Heap) (c : ptr Commit) msg view primary request ui :
  Commit_GetMsg c h = Ok msg ->
  Commit_M_GetView msg h = Ok view ->
  Commit_M_GetPrimaryId msg h = Ok primary ->
  Commit_M_GetRequest msg h = Ok request ->
  Commit_M_GetPrimaryUi msg h = Ok ui ->
  exists a b h',
    Commit_Prepare c h = Ok (at_ b, h') /\
    points_to h' (at_ a) {| Prepare_M_View := view; Prepare_M_ReplicaId := primary;
                            Prepare_M_Request := request |} /\
    points_to h' (at_ b) {| Prepare_Msg := at_ a; Prepare_ReplicaUi := ui |} /\
    h !! a = None /\ h !! b = None /\ h ⊆ h'.
Proof.
  intros E0 Ev Ep Er Eu.
  set (inner := {| Prepare_M_View := view; Prepare_M_ReplicaId := primary;
                   Prepare_M_Request := request |}).
  destruct (new_fresh h inner) as (a & Hnew & Ha).
  set (h1 := <[a := to_object inner]> h) in *.
  assert (h ⊆ h1) as Hsub1 by (by apply insert_subseteq).
  destruct (new_fresh h1 {| Prepare_Msg := at_ a; Prepare_ReplicaUi := ui |})
    as (b & Hnew' & Hb).
  assert (a <> b) as Hne.
  { intros <-. unfold h1 in Hb. by rewrite lookup_insert_eq in Hb. }
  exists a, b, (<[b := to_object {| Prepare_Msg := at_ a; Prepare_ReplicaUi := ui |}]> h1).
  split.
  - unfold Commit_Prepare, mbind, get. rewrite E0, Ev, Ep, Er.
    fold inner. rewrite Hnew.
    unfold Commit_M_GetPrimaryUi in *.
    rewrite (mono_getter _ _ _ h h1 ui Hsub1 Eu). exact Hnew'.
  - split; [apply points_to_insert_ne, points_to_insert; congruence|].
    split; [apply points_to_insert|].
    split; [done|].
    split; [unfold h1 in Hb; by rewrite lookup_insert_ne in Hb|].
    etrans; [exact Hsub1 | by apply insert_subseteq].
Qed.

(** C4. For a Commit in the store whose Msg is nil or in the store,
    Prepare() succeeds and returns a new Prepare whose view, replica
    field, request pointer and UI are the Commit's view, primaryID,
    request pointer and primaryUI; its ReplicaID() and UIBytes() are
    that primaryID and primaryUI; Request() on the Commit returns the
    same request pointer; the Commit itself is not changed. Hence a
    Prepare of the store whose content the Commit embeds is
    reconstructed: the new Prepare has the same payload and the same
    UI as that one. *)
Theorem Commit_Prepare_content (h : Heap) (c : ptr Commit) (cv : Commit) :
  points_to h c cv ->
  valid h (Commit_Msg cv) ->
  exists p h' view primary request ui,
    Commit_Prepare c h = Ok (p, h') /\
    Commit_content c h = Ok (view, primary, request, ui) /\
    Commit_content c h' = Ok (view, primary, request, ui) /\
    Prepare_content p h' = Ok (view, primary, request, ui) /\
    Prepare_ReplicaID p h' = Ok primary /\
    Prepare_UIBytes p h' = Ok ui /\
    Commit_Request c h = Ok request /\
    Commit_Request c h' = Ok request /\
    h ⊆ h' /\
    (forall p0 pv0 pm0,
       points_to h p0 pv0 ->
       points_to h (Prepare_Msg pv0) pm0 ->
       Prepare_content p0 h = Ok (view, primary, request, ui) ->
       Prepare_Payload p h' = Prepare_Payload p0 h' /\
       Prepare_UIBytes p h' = Prepare_UIBytes p0 h').
Proof.
  intros Hc Hv.
  pose proof (getter_points_to Commit_Msg nil _ _ _ Hc) as E0.
  destruct (Commit_M_getters h _ Hv) as (view & primary & request & ui & Ev & Ep & Er & Eu).
  destruct (Commit_Prepare_run h c _ _ _ _ _ E0 Ev Ep Er Eu)
    as (a & b & h' & Hrun & Ha & Hb & _ & _ & Hsub).
  assert (Commit_content c h = Ok (view, primary, request, ui)) as Hcc.
  { unfold Commit_content, bind. fold (Commit_GetMsg c).
    unfold Commit_GetMsg in *. by rewrite E0, Ev, Ep, Er, Eu. }
  assert (Commit_Request c h = Ok request) as Hcr.
  { unfold Commit_Request, bind. unfold Commit_GetMsg in *. by rewrite E0, Er. }
  pose proof (Prepare_content_points_to h' (at_ b) _ _ Hb Ha) as Hpc.
  cbn [Prepare_M_View Prepare_M_ReplicaId Prepare_M_Request Prepare_ReplicaUi] in Hpc.
  exists (at_ b), h', view, primary, request, ui.
  split; [exact Hrun|]. split; [exact Hcc|].
  split; [exact (mono_Commit_content c h h' _ Hsub Hcc)|].
  split; [exact Hpc|].
  split; [|split; [|split; [exact Hcr|split;
    [exact (mono_Commit_Request c h h' _ Hsub Hcr) | split; [exact Hsub|]]]]].
  - unfold Prepare_ReplicaID, bind, Prepare_M_GetReplicaId.
    rewrite (load_points_to _ _ _ Hb). cbn [Prepare_Msg].
    by rewrite (getter_points_to Prepare_M_ReplicaId 0 _ _ _ Ha).
  - unfold Prepare_UIBytes, Prepare_GetReplicaUi.
    by rewrite (getter_points_to Prepare_ReplicaUi None _ _ _ Hb).
  - intros p0 pv0 pm0 Hp0 Hm0 Hc0.
    pose proof (points_to_weaken h h' _ _ Hsub Hp0) as Hp0'.
    pose proof (points_to_weaken h h' _ _ Hsub Hm0) as Hm0'.
    apply (Prepare_same_content h' (at_ b) p0 _ _ pv0 pm0 Hb Ha Hp0' Hm0').
    rewrite Hpc, (Prepare_content_points_to h' p0 pv0 pm0 Hp0' Hm0').
    by rewrite (Prepare_content_points_to h p0 pv0 pm0 Hp0 Hm0) in Hc0.
Qed.

(** The Prepare made from a Commit names the Commit's primary. *)
Lemma Commit_Prepare_primary (h : Heap) (c : ptr Commit) (cv : Commit) (cm : Commit_M) :
  points_to h c cv ->
  points_to h (Commit_Msg cv) cm ->
  exists p h',
    Commit_Prepare c h = Ok (p, h') /\
    Prepare_ReplicaID p h' = Ok (Commit_M_PrimaryId cm) /\
    Prepare_UIBytes p h' = Ok (Commit_M_PrimaryUi cm).
Proof.
  intros Hc Hm.
  destruct (Commit_Prepare_run h c (Commit_Msg cv) (Commit_M_View cm)
              (Commit_M_PrimaryId cm) (Commit_M_Request cm) (Commit_M_PrimaryUi cm))
    as (a & b & h' & Hrun & Ha & Hb & _); try (by apply getter_points_to).
  exists (at_ b), h'. split; [exact Hrun|]. split.
  - unfold Prepare_ReplicaID, bind, Prepare_M_GetReplicaId.
    rewrite (load_points_to _ _ _ Hb). cbn [Prepare_Msg].
    by rewrite (getter_points_to Prepare_M_ReplicaId 0 _ _ _ Ha).
  - exact (getter_points_to Prepare_ReplicaUi None _ _ _ Hb).
Qed.

(** ** Whose ID and whose UI the accessors return *)

Lemma marshal_or_panic_is pb (h : Heap) : Payload_is (marshal_or_panic pb h) pb.
Proof.
  unfold Payload_is, marshal_or_panic. split.
  - by intros b ->.
  - by intros b e ->.
Qed.

Lemma holds_nil {T} `{Stored T} (h : Heap) (o : option T) : holds h nil o -> o = None.
Proof. destruct o as [v|]; [|done]. by intros (a & ? & _). Qed.

(** A getter on a pointer of which it is known what it holds. *)
Lemma getter_holds {T A} `{Stored T} (f : T -> A) z (h : Heap) (p : ptr T) o :
  holds h p o -> getter f z p h = Ok (from_option f z o).
Proof.
  destruct o as [v|]; simpl; [by apply getter_points_to | by intros ->].
Qed.

Lemma walk_Request_M_holds (h : Heap) p o :
  holds h p o -> walk_Request_M p h = Ok o.
Proof.
  destruct o as [v|]; simpl; [|by intros ->].
  intros Hp. pose proof (load_points_to _ _ _ Hp) as Hl.
  destruct Hp as (a & -> & _). unfold walk_Request_M, walk, bind. by rewrite Hl.
Qed.

Lemma walk_Request_holds (h : Heap) p orv orm :
  holds h p orv ->
  holds h (from_option Request_Msg nil orv) orm ->
  walk_Request p h =
    Ok (match orv with
        | None => None
        | Some rv => Some {| pb_Request_Msg := orm;
                             pb_Request_Signature := Request_Signature rv |}
        end).
Proof.
  destruct orv as [rv|]; simpl; [|by intros ->].
  intros Hp Hm. pose proof (load_points_to _ _ _ Hp) as Hl.
  destruct Hp as (a & -> & _). unfold walk_Request, walk, bind. rewrite Hl.
  fold walk_Request_M. by rewrite (walk_Request_M_holds h _ orm Hm).
Qed.

Lemma walk_Prepare_M_holds (h : Heap) p opm orv orm :
  holds h p opm ->
  holds h (from_option Prepare_M_Request nil opm) orv ->
  holds h (from_option Request_Msg nil orv) orm ->
  exists data, Prepare_message_data opm orv orm = pb_Prepare_M data /\
               walk_Prepare_M p h = Ok data.
Proof.
  destruct opm as [pm|]; simpl; [|intros -> _ _; by eexists].
  intros Hp Hr Hm. pose proof (load_points_to _ _ _ Hp) as Hl.
  destruct Hp as (a & -> & _). eexists. split; [done|].
  unfold walk_Prepare_M, walk, bind. rewrite Hl.
  by rewrite (walk_Request_holds h _ orv orm Hr Hm).
Qed.

(** C5. For a Prepare in the store, each of the pointers Msg, Msg.Request
    and Msg.Request.Msg being nil or holding its object: ReplicaID() is
    the replica field of the inner message (0 without inner message)
    and UIBytes() is the UI attached to the Prepare. Payload() hands the
    encoder the message data alone: view, replica and the request with
    its inner message and signature, without the attached UI; it
    returns the encoder's bytes when the encoder reports no error and
    panics with the encoder's error when it reports one, as for a
    Prepare without inner message. Attaching another UI does not change
    the payload. On the Prepare that Commit.Prepare makes from a Commit
    in the same store, ReplicaID() and UIBytes() are that Commit's
    primaryID and primaryUI. *)
Theorem Prepare_accessors (h : Heap) (p : ptr Prepare) (pv : Prepare)
    (opm : option Prepare_M) (orv : option Request) (orm : option Request_M) :
  points_to h p pv ->
  holds h (Prepare_Msg pv) opm ->
  holds h (from_option Prepare_M_Request nil opm) orv ->
  holds h (from_option Request_Msg nil orv) orm ->
  Prepare_ReplicaID p h = Ok (from_option Prepare_M_ReplicaId 0 opm) /\
  Prepare_UIBytes p h = Ok (Prepare_ReplicaUi pv) /\
  Payload_is (Prepare_Payload p h) (Prepare_message_data opm orv orm) /\
  (forall ui, exists h',
     Prepare_AttachUI p ui h = Ok (tt, h') /\
     Prepare_UIBytes p h' = Ok ui /\
     Prepare_Payload p h' = Prepare_Payload p h) /\
  (forall c cv cm,
     points_to h c cv ->
     points_to h (Commit_Msg cv) cm ->
     exists p' h',
       Commit_Prepare c h = Ok (p', h') /\
       Prepare_ReplicaID p' h' = Ok (Commit_M_PrimaryId cm) /\
       Prepare_UIBytes p' h' = Ok (Commit_M_PrimaryUi cm)).
Proof.
  intros Hp Hm Hr Hrm. split; [|split; [|split; [|split]]];
    [| | | |exact (Commit_Prepare_primary h)].
  - unfold Prepare_ReplicaID, bind, Prepare_M_GetReplicaId.
    rewrite (load_points_to _ _ _ Hp).
    exact (getter_holds Prepare_M_ReplicaId 0 h _ opm Hm).
  - exact (getter_points_to Prepare_ReplicaUi None _ _ _ Hp).
  - destruct (walk_Prepare_M_holds h _ opm orv orm Hm Hr Hrm) as (data & -> & Hwalk).
    unfold Prepare_Payload, bind, Prepare_GetMsg.
    rewrite (getter_points_to Prepare_Msg nil _ _ _ Hp), Hwalk.
    apply marshal_or_panic_is.
  - intros ui.
    destruct (Prepare_round_trip h p pv ui Hp) as (h' & Hrun & Hui).
    destruct (Prepare_ui_frame h p pv ui Hp) as (h'' & _ & Hrun' & _ & _ & _ & Hpay & _).
    cbn [AttachUI UIBytes UIPayload Prepare_MessageWithUI] in *.
    rewrite Hrun in Hrun'. injection Hrun' as <-.
    by exists h'.
Qed.

(** C6. For a Commit in the store with its inner message in the store:
    ReplicaID() is the replicaID field of the inner message and
    UIBytes() is the UI attached to the Commit. Neither depends on the
    embedded primaryID and primaryUI: with any other values in those
    two fields the accessors return the same. *)
Theorem Commit_accessors (h : Heap) (a b : addr) (cv : Commit) (cm : Commit_M) :
  h !! a = Some (to_object cv) ->
  Commit_Msg cv = at_ b ->
  h !! b = Some (to_object cm) ->
  Commit_ReplicaID (at_ a) h = Ok (Commit_M_ReplicaId cm) /\
  Commit_UIBytes (at_ a) h = Ok (Commit_ReplicaUi cv) /\
  (forall primary' ui',
     let h' := <[b := to_object {| Commit_M_View := Commit_M_View cm;
                                   Commit_M_ReplicaId := Commit_M_ReplicaId cm;
                                   Commit_M_PrimaryId := primary';
                                   Commit_M_Request := Commit_M_Request cm;
                                   Commit_M_PrimaryUi := ui' |}]> h in
     Commit_ReplicaID (at_ a) h' = Ok (Commit_M_ReplicaId cm) /\
     Commit_UIBytes (at_ a) h' = Ok (Commit_ReplicaUi cv)).
Proof.
  intros Ha Hmsg Hb.
  assert (points_to h (at_ a) cv) as Hc by (by exists a).
  split; [|split].
  - unfold Commit_ReplicaID, bind, Commit_M_GetReplicaId.
    rewrite (load_points_to _ _ _ Hc), Hmsg.
    by rewrite (getter_points_to Commit_M_ReplicaId 0 h (at_ b) cm) by (by exists b).
  - exact (getter_points_to Commit_ReplicaUi None _ _ _ Hc).
  - intros primary' ui' h'. split.
    + unfold Commit_ReplicaID, bind, Commit_M_GetReplicaId. unfold h'.
      rewrite (load_insert_apart (T:=Commit) (U:=Commit_M) h b cm _ Hb).
      rewrite (load_points_to _ _ _ Hc), Hmsg.
      by rewrite (getter_points_to Commit_M_ReplicaId 0 _ _ _ (points_to_insert h b _)).
    + unfold Commit_UIBytes, Commit_GetReplicaUi, h'.
      rewrite (getter_insert_apart (T:=Commit) (U:=Commit_M) h b cm _ Hb).
      exact (getter_points_to Commit_ReplicaUi None _ _ _ Hc).
Qed.

(** ** Attaching twice *)

(** X3. Attaching a second tag gives the store that attaching it alone
    would have given: the first tag leaves no trace. *)
Theorem attach_last_wins (h : Heap) (tag1 tag2 : bytes) :
  (forall (m : ptr Request) v, points_to h m v ->
     exists h1 h2, Request_AttachSignature m tag1 h = Ok (tt, h1) /\
                   Request_AttachSignature m tag2 h1 = Ok (tt, h2) /\
                   Request_AttachSignature m tag2 h = Ok (tt, h2)) /\
  (forall (m : ptr Reply) v, points_to h m v ->
     exists h1 h2, Reply_AttachSignature m tag1 h = Ok (tt, h1) /\
                   Reply_AttachSignature m tag2 h1 = Ok (tt, h2) /\
                   Reply_AttachSignature m tag2 h = Ok (tt, h2)) /\
  (forall (m : ptr Prepare) v, points_to h m v ->
     exists h1 h2, Prepare_AttachUI m tag1 h = Ok (tt, h1) /\
                   Prepare_AttachUI m tag2 h1 = Ok (tt, h2) /\
                   Prepare_AttachUI m tag2 h = Ok (tt, h2)) /\
  (forall (m : ptr Commit) v, points_to h m v ->
     exists h1 h2, Commit_AttachUI m tag1 h = Ok (tt, h1) /\
                   Commit_AttachUI m tag2 h1 = Ok (tt, h2) /\
                   Commit_AttachUI m tag2 h = Ok (tt, h2)).
Proof.
  split; [|split; [|split]]; intros m v (a & -> & Ha); eexists _, _.
  - split; [exact (Request_AttachSignature_run h a v tag1 Ha)|].
    rewrite (Request_AttachSignature_run h a v tag2 Ha).
    rewrite (Request_AttachSignature_run _ a _ tag2 (lookup_insert_eq h a _)).
    cbn [Request_Msg]. by rewrite insert_insert_eq.
  - split; [exact (Reply_AttachSignature_run h a v tag1 Ha)|].
    rewrite (Reply_AttachSignature_run h a v tag2 Ha).
    rewrite (Reply_AttachSignature_run _ a _ tag2 (lookup_insert_eq h a _)).
    cbn [Reply_Msg]. by rewrite insert_insert_eq.
  - split; [exact (Prepare_AttachUI_run h a v tag1 Ha)|].
    rewrite (Prepare_AttachUI_run h a v tag2 Ha).
    rewrite (Prepare_AttachUI_run _ a _ tag2 (lookup_insert_eq h a _)).
    cbn [Prepare_Msg]. by rewrite insert_insert_eq.
  - split; [exact (Commit_AttachUI_run h a v tag1 Ha)|].
    rewrite (Commit_AttachUI_run h a v tag2 Ha).
    rewrite (Commit_AttachUI_run _ a _ tag2 (lookup_insert_eq h a _)).
    cbn [Commit_Msg]. by rewrite insert_insert_eq.
Qed.

(** X4. Attaching to a message the tag it already carries leaves the whole
    store as it was. *)
Theorem attach_current_tag (h : Heap) :
  (forall (m : ptr Request) v, points_to h m v ->
     exists tag, Request_SignatureBytes m h = Ok tag /\
                 Request_AttachSignature m tag h = Ok (tt, h)) /\
  (forall (m : ptr Reply) v, points_to h m v ->
     exists tag, Reply_SignatureBytes m h = Ok tag /\
                 Reply_AttachSignature m tag h = Ok (tt, h)) /\
  (forall (m : ptr Prepare) v, points_to h m v ->
     exists tag, Prepare_UIBytes m h = Ok tag /\
                 Prepare_AttachUI m tag h = Ok (tt, h)) /\
  (forall (m : ptr Commit) v, points_to h m v ->
     exists tag, Commit_UIBytes m h = Ok tag /\
                 Commit_AttachUI m tag h = Ok (tt, h)).
Proof.
  split; [|split; [|split]]; intros m v Hm;
    pose proof Hm as (a & -> & Ha); eexists; (split; [by apply getter_points_to|]).
  - rewrite (Request_AttachSignature_run h a v _ Ha).
    destruct v. by rewrite insert_id.
  - rewrite (Reply_AttachSignature_run h a v _ Ha).
    destruct v. by rewrite insert_id.
  - rewrite (Prepare_AttachUI_run h a v _ Ha).
    destruct v. by rewrite insert_id.
  - rewrite (Commit_AttachUI_run h a v _ Ha).
    destruct v. by rewrite insert_id.
Qed.

(** ** Reads in two stores that agree on the types read *)

Lemma agree_insert_apart {T U} `{Apart T U} (h : Heap) a (u u' : U) :
  h !! a = Some (to_object u) -> agree T h (<[a := to_object u']> h).
Proof. intros Ha b. by apply (object_at_insert_apart h a b u u'). Qed.

Lemma load_agree {T} `{Stored T} (h h' : Heap) (p : ptr T) :
  agree T h h' -> load p h' = load p h.
Proof. intros Hag. destruct p as [|b]; [done|]. unfold load. by rewrite Hag. Qed.

Lemma getter_agree {T A} `{Stored T} (f : T -> A) z (h h' : Heap) (p : ptr T) :
  agree T h h' -> getter f z p h' = getter f z p h.
Proof.
  intros Hag. destruct p as [|b]; [done|]. unfold getter, bind.
  by rewrite (load_agree h h' _ Hag).
Qed.

Lemma walk_agree {T A} `{Stored T} (inner : T -> R A) (h h' : Heap) (p : ptr T) :
  agree T h h' -> (forall v, inner v h' = inner v h) ->
  walk inner p h' = walk inner p h.
Proof.
  intros Hag Hin. destruct p as [|b]; [done|]. unfold walk, bind.
  rewrite (load_agree h h' _ Hag). destruct (load (at_ b) h); [|done..].
  by rewrite Hin.
Qed.

Lemma load_insert_ne {T} `{Stored T} (h : Heap) a o (q : ptr T) :
  q <> at_ a -> load q (<[a := o]> h) = load q h.
Proof.
  intros Hq. destruct q as [|b]; [done|]. unfold load.
  rewrite object_at_insert_ne; [done | congruence].
Qed.

Lemma getter_insert_ne {T A} `{Stored T} (f : T -> A) z (h : Heap) a o (q : ptr T) :
  q <> at_ a -> getter f z q (<[a := o]> h) = getter f z q h.
Proof.
  intros Hq. destruct q as [|b]; [done|]. unfold getter, bind.
  by rewrite load_insert_ne.
Qed.

Lemma walk_Request_agree (h h' : Heap) p :
  agree Request h h' -> agree Request_M h h' ->
  walk_Request p h' = walk_Request p h.
Proof.
  intros H1 H2. apply walk_agree; [done|]. intros v. unfold bind.
  assert (walk_Request_M (Request_Msg v) h' = walk_Request_M (Request_Msg v) h) as ->
    by (by apply walk_agree).
  done.
Qed.

Lemma Request_ClientID_agree (h h' : Heap) q :
  Request_GetMsg q h' = Request_GetMsg q h -> agree Request_M h h' ->
  Request_ClientID q h' = Request_ClientID q h.
Proof.
  intros Hmsg H1. unfold Request_ClientID, bind. rewrite Hmsg.
  destruct (Request_GetMsg q h); [|done..].
  by apply getter_agree.
Qed.

Lemma Request_Payload_agree (h h' : Heap) q :
  Request_GetMsg q h' = Request_GetMsg q h -> agree Request_M h h' ->
  Request_Payload q h' = Request_Payload q h.
Proof.
  intros Hmsg H1. unfold Request_Payload, bind. rewrite Hmsg.
  destruct (Request_GetMsg q h); [|done..].
  assert (walk_Request_M a h' = walk_Request_M a h) as ->
    by (by apply walk_agree).
  same_walk.
Qed.

Lemma Reply_Payload_agree (h h' : Heap) q :
  Reply_GetMsg q h' = Reply_GetMsg q h -> agree Reply_M h h' ->
  Reply_Payload q h' = Reply_Payload q h.
Proof.
  intros Hmsg H1. unfold Reply_Payload, bind. rewrite Hmsg.
  destruct (Reply_GetMsg q h); [|done..].
  assert (walk_Reply_M a h' = walk_Reply_M a h) as ->
    by (by apply walk_agree).
  same_walk.
Qed.

Lemma Prepare_ReplicaID_agree (h h' : Heap) q :
  load q h' = load q h -> agree Prepare_M h h' ->
  Prepare_ReplicaID q h' = Prepare_ReplicaID q h.
Proof.
  intros Hq H1. unfold Prepare_ReplicaID, bind. rewrite Hq.
  destruct (load q h); [|done..]. by apply getter_agree.
Qed.

Lemma Prepare_Payload_agree (h h' : Heap) q :
  Prepare_GetMsg q h' = Prepare_GetMsg q h ->
  agree Prepare_M h h' -> agree Request h h' -> agree Request_M h h' ->
  Prepare_Payload q h' = Prepare_Payload q h.
Proof.
  intros Hmsg H1 H2 H3. unfold Prepare_Payload, bind. rewrite Hmsg.
  destruct (Prepare_GetMsg q h); [|done..].
  assert (walk_Prepare_M a h' = walk_Prepare_M a h) as ->.
  { apply walk_agree; [done|]. intros v. unfold bind.
    by rewrite (walk_Request_agree h h' _ H2 H3). }
  same_walk.
Qed.

Lemma Commit_ReplicaID_agree (h h' : Heap) q :
  load q h' = load q h -> agree Commit_M h h' ->
  Commit_ReplicaID q h' = Commit_ReplicaID q h.
Proof.
  intros Hq H1. unfold Commit_ReplicaID, bind. rewrite Hq.
  destruct (load q h); [|done..]. by apply getter_agree.
Qed.

Lemma Commit_Payload_agree (h h' : Heap) q :
  Commit_GetMsg q h' = Commit_GetMsg q h ->
  agree Commit_M h h' -> agree Request h h' -> agree Request_M h h' ->
  Commit_Payload q h' = Commit_Payload q h.
Proof.
  intros Hmsg H1 H2 H3. unfold Commit_Payload, bind. rewrite Hmsg.
  destruct (Commit_GetMsg q h); [|done..].
  assert (walk_Commit_M a h' = walk_Commit_M a h) as ->.
  { apply walk_agree; [done|]. intros v. unfold bind.
    by rewrite (walk_Request_agree h h' _ H2 H3). }
  same_walk.
Qed.

(** ** Attaching and the other messages *)

(** X5. AttachUI on a Prepare or a Commit changes none of the three results
    (UIBytes, ReplicaID, Payload) of any other Prepare and any other
    Commit, whatever they point to. *)
Theorem attach_ui_elsewhere (h : Heap) (a : addr) (ui : bytes) :
  (forall v : Prepare, h !! a = Some (to_object v) ->
     exists h', Prepare_AttachUI (at_ a) ui h = Ok (tt, h') /\
       (forall q : ptr Prepare, q <> at_ a ->
          Prepare_UIBytes q h' = Prepare_UIBytes q h /\
          Prepare_ReplicaID q h' = Prepare_ReplicaID q h /\
          Prepare_Payload q h' = Prepare_Payload q h) /\
       (forall q : ptr Commit,
          Commit_UIBytes q h' = Commit_UIBytes q h /\
          Commit_ReplicaID q h' = Commit_ReplicaID q h /\
          Commit_Payload q h' = Commit_Payload q h)) /\
  (forall v : Commit, h !! a = Some (to_object v) ->
     exists h', Commit_AttachUI (at_ a) ui h = Ok (tt, h') /\
       (forall q : ptr Commit, q <> at_ a ->
          Commit_UIBytes q h' = Commit_UIBytes q h /\
          Commit_ReplicaID q h' = Commit_ReplicaID q h /\
          Commit_Payload q h' = Commit_Payload q h) /\
       (forall q : ptr Prepare,
          Prepare_UIBytes q h' = Prepare_UIBytes q h /\
          Prepare_ReplicaID q h' = Prepare_ReplicaID q h /\
          Prepare_Payload q h' = Prepare_Payload q h)).
Proof.
  split; intros v Ha; eexists.
  - split; [exact (Prepare_AttachUI_run h a v ui Ha)|].
    set (v' := {| Prepare_Msg := Prepare_Msg v; Prepare_ReplicaUi := ui |}).
    pose proof (agree_insert_apart (T:=Prepare_M) h a v v' Ha) as H1.
    pose proof (agree_insert_apart (T:=Request) h a v v' Ha) as H2.
    pose proof (agree_insert_apart (T:=Request_M) h a v v' Ha) as H3.
    pose proof (agree_insert_apart (T:=Commit_M) h a v v' Ha) as H4.
    pose proof (agree_insert_apart (T:=Commit) h a v v' Ha) as H5.
    split; [intros q Hq | intros q]; split; [|split| |split].
    + by apply getter_insert_ne.
    + apply Prepare_ReplicaID_agree; [by apply load_insert_ne | done].
    + apply Prepare_Payload_agree; [by apply getter_insert_ne | done..].
    + by apply getter_agree.
    + apply Commit_ReplicaID_agree; [by apply load_agree | done].
    + apply Commit_Payload_agree; [by apply getter_agree | done..].
  - split; [exact (Commit_AttachUI_run h a v ui Ha)|].
    set (v' := {| Commit_Msg := Commit_Msg v; Commit_ReplicaUi := ui |}).
    pose proof (agree_insert_apart (T:=Commit_M) h a v v' Ha) as H1.
    pose proof (agree_insert_apart (T:=Request) h a v v' Ha) as H2.
    pose proof (agree_insert_apart (T:=Request_M) h a v v' Ha) as H3.
    pose proof (agree_insert_apart (T:=Prepare_M) h a v v' Ha) as H4.
    pose proof (agree_insert_apart (T:=Prepare) h a v v' Ha) as H5.
    split; [intros q Hq | intros q]; split; [|split| |split].
    + by apply getter_insert_ne.
    + apply Commit_ReplicaID_agree; [by apply load_insert_ne | done].
    + apply Commit_Payload_agree; [by apply getter_insert_ne | done..].
    + by apply getter_agree.
    + apply Prepare_ReplicaID_agree; [by apply load_agree | done].
    + apply Prepare_Payload_agree; [by apply getter_agree | done..].
Qed.

(** X6. AttachSignature on a Request or a Reply changes none of the results
    of any other Request and any other Reply. *)
Theorem attach_signature_elsewhere (h : Heap) (a : addr) (tag : bytes) :
  (forall v : Request, h !! a = Some (to_object v) ->
     exists h', Request_AttachSignature (at_ a) tag h = Ok (tt, h') /\
       (forall q : ptr Request, q <> at_ a ->
          Request_SignatureBytes q h' = Request_SignatureBytes q h /\
          Request_ClientID q h' = Request_ClientID q h /\
          Request_Payload q h' = Request_Payload q h) /\
       (forall q : ptr Reply,
          Reply_SignatureBytes q h' = Reply_SignatureBytes q h /\
          Reply_Payload q h' = Reply_Payload q h)) /\
  (forall v : Reply, h !! a = Some (to_object v) ->
     exists h', Reply_AttachSignature (at_ a) tag h = Ok (tt, h') /\
       (forall q : ptr Reply, q <> at_ a ->
          Reply_SignatureBytes q h' = Reply_SignatureBytes q h /\
          Reply_Payload q h' = Reply_Payload q h) /\
       (forall q : ptr Request,
          Request_SignatureBytes q h' = Request_SignatureBytes q h /\
          Request_ClientID q h' = Request_ClientID q h /\
          Request_Payload q h' = Request_Payload q h)).
Proof.
  split; intros v Ha; eexists.
  - split; [exact (Request_AttachSignature_run h a v tag Ha)|].
    set (v' := {| Request_Msg := Request_Msg v; Request_Signature := tag |}).
    pose proof (agree_insert_apart (T:=Request_M) h a v v' Ha) as H1.
    pose proof (agree_insert_apart (T:=Reply_M) h a v v' Ha) as H2.
    pose proof (agree_insert_apart (T:=Reply) h a v v' Ha) as H3.
    split; [intros q Hq; split; [|split] | intros q; split].
    + by apply getter_insert_ne.
    + apply Request_ClientID_agree; [by apply getter_insert_ne | done].
    + apply Request_Payload_agree; [by apply getter_insert_ne | done].
    + by apply getter_agree.
    + apply Reply_Payload_agree; [by apply getter_agree | done].
  - split; [exact (Reply_AttachSignature_run h a v tag Ha)|].
    set (v' := {| Reply_Msg := Reply_Msg v; Reply_Signature := tag |}).
    pose proof (agree_insert_apart (T:=Reply_M) h a v v' Ha) as H1.
    pose proof (agree_insert_apart (T:=Request_M) h a v v' Ha) as H2.
    pose proof (agree_insert_apart (T:=Request) h a v v' Ha) as H3.
    split; [intros q Hq; split | intros q; split; [|split]].
    + by apply getter_insert_ne.
    + apply Reply_Payload_agree; [by apply getter_insert_ne | done].
    + by apply getter_agree.
    + apply Request_ClientID_agree; [by apply getter_agree | done].
    + apply Request_Payload_agree; [by apply getter_agree | done].
Qed.

(** ** The request inside a Prepare and a Commit *)

Lemma points_to_insert_apart {T U} `{Apart T U} (h : Heap) a (u u' : U) (q : ptr T) w :
  h !! a = Some (to_object u) ->
  points_to h q w -> points_to (<[a := to_object u']> h) q w.
Proof.
  intros Ha (b & -> & Hb). exists b. split; [done|].
  destruct (decide (a = b)) as [<-|Hne]; [|by rewrite lookup_insert_ne].
  rewrite Ha in Hb. injection Hb as Hb.
  pose proof (apart (T:=T) u) as Hap. rewrite Hb, of_to_object in Hap. done.
Qed.

(** Payload of a Commit whose inner message is in the store: the
    encoding of view, replicaID, primaryID, the request behind the
    pointer and primaryUI. *)
Lemma Commit_Payload_points_to (h : Heap) (c : ptr Commit) cv cm :
  points_to h c cv ->
  points_to h (Commit_Msg cv) cm ->
  Commit_Payload c h =
    bind (walk_Request (Commit_M_Request cm))
      (fun request =>
         marshal_or_panic
           (pb_Commit_M (Some {| pb_Commit_M_View := Commit_M_View cm;
                                 pb_Commit_M_ReplicaId := Commit_M_ReplicaId cm;
                                 pb_Commit_M_PrimaryId := Commit_M_PrimaryId cm;
                                 pb_Commit_M_Request := request;
                                 pb_Commit_M_PrimaryUi := Commit_M_PrimaryUi cm |}))) h.
Proof.
  intros Hc Hm. unfold Commit_Payload, bind, Commit_GetMsg.
  rewrite (getter_points_to Commit_Msg nil _ _ _ Hc).
  destruct Hm as (b & -> & Hb). unfold walk_Commit_M, walk, bind.
  rewrite (load_points_to h (at_ b) cm) by (by exists b).
  by destruct (walk_Request (Commit_M_Request cm) h).
Qed.

(** What the walk finds behind a request pointer after a signature was
    attached to that request. *)
Lemma walk_Request_attached (h : Heap) a rv msg tag :
  h !! a = Some (to_object rv) ->
  walk_Request_M (Request_Msg rv) h = Ok msg ->
  walk_Request (at_ a)
    (<[a := to_object {| Request_Msg := Request_Msg rv; Request_Signature := tag |}]> h)
  = Ok (Some {| pb_Request_Msg := msg; pb_Request_Signature := tag |}).
Proof.
  intros Ha Hmsg. unfold walk_Request, walk, bind.
  rewrite (load_points_to _ _ _ (points_to_insert h a _)). cbn [Request_Msg].
  fold walk_Request_M.
  rewrite (walk_Request_M_insert_apart (U:=Request) h a rv _ _ Ha), Hmsg.
  done.
Qed.

Lemma Prepare_Payload_after_signature (h : Heap) a rv msg tag p pv pm :
  h !! a = Some (to_object rv) ->
  walk_Request_M (Request_Msg rv) h = Ok msg ->
  points_to h p pv -> points_to h (Prepare_Msg pv) pm ->
  Prepare_M_Request pm = at_ a ->
  let h' := <[a := to_object {| Request_Msg := Request_Msg rv;
                                Request_Signature := tag |}]> h in
  Prepare_Payload p h' =
    marshal_or_panic
      (pb_Prepare_M
         (Some {| pb_Prepare_M_View := Prepare_M_View pm;
                  pb_Prepare_M_ReplicaId := Prepare_M_ReplicaId pm;
                  pb_Prepare_M_Request :=
                    Some {| pb_Request_Msg := msg;
                            pb_Request_Signature := tag |} |})) h'.
Proof.
  intros Ha Hmsg Hp Hm Hreq h'.
  pose proof (walk_Request_attached h a rv msg tag Ha Hmsg) as Hwalk.
  set (rv' := {| Request_Msg := Request_Msg rv; Request_Signature := tag |}) in *.
  pose proof (points_to_insert_apart (T:=Prepare) h a rv rv' p pv Ha Hp) as Hp'.
  pose proof (points_to_insert_apart (T:=Prepare_M) h a rv rv' _ pm Ha Hm) as Hm'.
  unfold h'. rewrite (Prepare_Payload_points_to _ p pv pm Hp' Hm').
  unfold bind. by rewrite Hreq, Hwalk.
Qed.

Lemma Commit_Payload_after_signature (h : Heap) a rv msg tag c cv cm :
  h !! a = Some (to_object rv) ->
  walk_Request_M (Request_Msg rv) h = Ok msg ->
  points_to h c cv -> points_to h (Commit_Msg cv) cm ->
  Commit_M_Request cm = at_ a ->
  let h' := <[a := to_object {| Request_Msg := Request_Msg rv;
                                Request_Signature := tag |}]> h in
  Commit_Payload c h' =
    marshal_or_panic
      (pb_Commit_M
         (Some {| pb_Commit_M_View := Commit_M_View cm;
                  pb_Commit_M_ReplicaId := Commit_M_ReplicaId cm;
                  pb_Commit_M_PrimaryId := Commit_M_PrimaryId cm;
                  pb_Commit_M_Request :=
                    Some {| pb_Request_Msg := msg;
                            pb_Request_Signature := tag |};
                  pb_Commit_M_PrimaryUi := Commit_M_PrimaryUi cm |})) h'.
Proof.
  intros Ha Hmsg Hc Hm Hreq h'.
  pose proof (walk_Request_attached h a rv msg tag Ha Hmsg) as Hwalk.
  set (rv' := {| Request_Msg := Request_Msg rv; Request_Signature := tag |}) in *.
  pose proof (points_to_insert_apart (T:=Commit) h a rv rv' c cv Ha Hc) as Hc'.
  pose proof (points_to_insert_apart (T:=Commit_M) h a rv rv' _ cm Ha Hm) as Hm'.
  unfold h'. rewrite (Commit_Payload_points_to _ c cv cm Hc' Hm').
  unfold bind. by rewrite Hreq, Hwalk.
Qed.

(** X7. The payload of a Prepare and of a Commit covers the signature of
    the request they point to: after AttachSignature on that request,
    their Payload() is the encoding of the inner message with the new
    signature in it. *)
Theorem embedded_request_signature (h : Heap) (a : addr) (rv : Request)
    (msg : option Request_M) (tag : bytes) :
  h !! a = Some (to_object rv) ->
  walk_Request_M (Request_Msg rv) h = Ok msg ->
  exists h',
    Request_AttachSignature (at_ a) tag h = Ok (tt, h') /\
    (forall p pv pm,
       points_to h p pv -> points_to h (Prepare_Msg pv) pm ->
       Prepare_M_Request pm = at_ a ->
       Prepare_Payload p h' =
         marshal_or_panic
           (pb_Prepare_M
              (Some {| pb_Prepare_M_View := Prepare_M_View pm;
                       pb_Prepare_M_ReplicaId := Prepare_M_ReplicaId pm;
                       pb_Prepare_M_Request :=
                         Some {| pb_Request_Msg := msg;
                                 pb_Request_Signature := tag |} |})) h') /\
    (forall c cv cm,
       points_to h c cv -> points_to h (Commit_Msg cv) cm ->
       Commit_M_Request cm = at_ a ->
       Commit_Payload c h' =
         marshal_or_panic
           (pb_Commit_M
              (Some {| pb_Commit_M_View := Commit_M_View cm;
                       pb_Commit_M_ReplicaId := Commit_M_ReplicaId cm;
                       pb_Commit_M_PrimaryId := Commit_M_PrimaryId cm;
                       pb_Commit_M_Request :=
                         Some {| pb_Request_Msg := msg;
                                 pb_Request_Signature := tag |};
                       pb_Commit_M_PrimaryUi := Commit_M_PrimaryUi cm |})) h').
Proof.
  intros Ha Hmsg. eexists.
  split; [exact (Request_AttachSignature_run h a rv tag Ha)|].
  split.
  - intros p pv pm Hp Hm Hreq.
    exact (Prepare_Payload_after_signature h a rv msg tag p pv pm Ha Hmsg Hp Hm Hreq).
  - intros c cv cm Hc Hm Hreq.
    exact (Commit_Payload_after_signature h a rv msg tag c cv cm Ha Hmsg Hc Hm Hreq).
Qed.

(** ** When the methods panic *)

Lemma quiet_ret {A} (a : A) : quiet (ret a).
Proof. by intros h v. Qed.

Lemma quiet_bind {A B} (r : R A) (k : A -> R B) :
  quiet r -> (forall a, quiet (k a)) -> quiet (bind r k).
Proof.
  intros Hr Hk h v. unfold bind.
  destruct (r h) as [a|v'|] eqn:E; [apply Hk | by destruct (Hr h v') | done].
Qed.

Lemma quiet_load_at {T} `{Stored T} a : quiet (load (T:=T) (at_ a)).
Proof. intros h v. unfold load. by destruct (object_at h a). Qed.

Lemma quiet_getter {T A} `{Stored T} (f : T -> A) z (p : ptr T) : quiet (getter f z p).
Proof.
  destruct p as [|a]; [apply quiet_ret|].
  apply quiet_bind; [apply quiet_load_at | intros; apply quiet_ret].
Qed.

Lemma quiet_walk {T A} `{Stored T} (inner : T -> R A) (p : ptr T) :
  (forall v, quiet (inner v)) -> quiet (walk inner p).
Proof.
  intros Hin. destruct p as [|a]; [apply quiet_ret|].
  apply quiet_bind; [apply quiet_load_at|]. intros v.
  apply quiet_bind; [apply Hin | intros; apply quiet_ret].
Qed.

Lemma quiet_walk_Request p : quiet (walk_Request p).
Proof.
  apply quiet_walk. intros v.
  apply quiet_bind; [|intros; apply quiet_ret].
  apply quiet_walk. intros; apply quiet_ret.
Qed.

Lemma marshal_or_panic_outcome {X} (arg : option X -> proto_Message) pb (h : Heap) :
  Marshal_outcome arg (marshal_or_panic (arg pb) h).
Proof.
  unfold marshal_or_panic.
  destruct (proto_Marshal (arg pb)) as [b [e|]] eqn:E; simpl; eauto.
Qed.

(** The outcome of a walk followed by the encoder. *)
Lemma walk_then_marshal {X} (arg : option X -> proto_Message)
    (w : R (option X)) (h : Heap) :
  quiet w ->
  Marshal_outcome arg
    (match w h with
     | Ok pb => marshal_or_panic (arg pb) h
     | Panic v => Panic v
     | Stray => Stray
     end).
Proof.
  intros Hw. destruct (w h) as [pb|v|] eqn:E;
    [apply marshal_or_panic_outcome | by destruct (Hw h v) | done].
Qed.

(** X8. Payload() returns only bytes that proto.Marshal returned without an
    error, and panics only with an error that proto.Marshal returned:
    for no receiver, nil included, does it panic on a nil pointer. *)
Theorem Payload_outcome (h : Heap) :
  (forall m, Marshal_outcome pb_Request_M (Request_Payload m h)) /\
  (forall m, Marshal_outcome pb_Reply_M (Reply_Payload m h)) /\
  (forall m, Marshal_outcome pb_Prepare_M (Prepare_Payload m h)) /\
  (forall m, Marshal_outcome pb_Commit_M (Commit_Payload m h)).
Proof.
  split; [|split; [|split]]; intros m.
  - unfold Request_Payload, bind.
    destruct (Request_GetMsg m h) as [msg|v|] eqn:E;
      [|by destruct (quiet_getter Request_Msg nil m h v)|done].
    apply (walk_then_marshal pb_Request_M (walk_Request_M msg)).
    apply quiet_walk. intros; apply quiet_ret.
  - unfold Reply_Payload, bind.
    destruct (Reply_GetMsg m h) as [msg|v|] eqn:E;
      [|by destruct (quiet_getter Reply_Msg nil m h v)|done].
    apply (walk_then_marshal pb_Reply_M (walk_Reply_M msg)).
    apply quiet_walk. intros; apply quiet_ret.
  - unfold Prepare_Payload, bind.
    destruct (Prepare_GetMsg m h) as [msg|v|] eqn:E;
      [|by destruct (quiet_getter Prepare_Msg nil m h v)|done].
    apply (walk_then_marshal pb_Prepare_M (walk_Prepare_M msg)).
    apply quiet_walk. intros v.
    apply quiet_bind; [apply quiet_walk_Request | intros; apply quiet_ret].
  - unfold Commit_Payload, bind.
    destruct (Commit_GetMsg m h) as [msg|v|] eqn:E;
      [|by destruct (quiet_getter Commit_Msg nil m h v)|done].
    apply (walk_then_marshal pb_Commit_M (walk_Commit_M msg)).
    apply quiet_walk. intros v.
    apply quiet_bind; [apply quiet_walk_Request | intros; apply quiet_ret].
Qed.

Lemma load_panics {T} `{Stored T} (p : ptr T) (h : Heap) v :
  load p h = Panic v <-> p = nil /\ v = nil_dereference.
Proof.
  split; [|by intros [-> ->]].
  destruct p as [|a]; [by intros [= <-]|].
  intros Hp. by destruct (quiet_load_at (T:=T) a h v).
Qed.

(** A field read without a nil test, followed by a getter. *)
Lemma field_getter_panics {T U A} `{Stored T} `{Stored U}
    (inner : T -> ptr U) (f : U -> A) z (p : ptr T) (h : Heap) v :
  bind (load p) (fun x => getter f z (inner x)) h = Panic v <->
  p = nil /\ v = nil_dereference.
Proof.
  split; [|by intros [-> ->]].
  unfold bind. destruct (load p h) as [x|v'|] eqn:E; [| |done].
  - intros Hg. by destruct (quiet_getter f z (inner x) h v).
  - intros [= ->]. by apply (load_panics p h v).
Qed.

(** A field assignment: [v <- get (load m) ;; store m (set v)]. *)
Lemma assign_panics {T} `{Stored T} (set : T -> T) (m : ptr T) (h : Heap) v :
  mbind (get (load m)) (fun x => store m (set x)) h = Panic v <->
  m = nil /\ v = nil_dereference.
Proof.
  split; [|by intros [-> ->]].
  unfold mbind, get. destruct (load m h) as [x|v'|] eqn:E; [| |done].
  - destruct m as [|a]; [done|]. unfold store.
    by destruct (object_at h a).
  - intros [= ->]. by apply (load_panics m h v).
Qed.

(** X9. ReplicaID(), AttachUI() and AttachSignature() panic on the
    nil receiver, with a nil dereference, and on no other receiver,
    also not on a message whose inner message is missing. ClientID(),
    SignatureBytes(), UIBytes() and Commit.Request() panic on no
    receiver. *)
Theorem nil_receiver_panics (h : Heap) (tag : bytes) (v : panic_value) :
  (forall p, Prepare_ReplicaID p h = Panic v <-> p = nil /\ v = nil_dereference) /\
  (forall c, Commit_ReplicaID c h = Panic v <-> c = nil /\ v = nil_dereference) /\
  (forall m, Request_AttachSignature m tag h = Panic v <-> m = nil /\ v = nil_dereference) /\
  (forall m, Reply_AttachSignature m tag h = Panic v <-> m = nil /\ v = nil_dereference) /\
  (forall m, Prepare_AttachUI m tag h = Panic v <-> m = nil /\ v = nil_dereference) /\
  (forall m, Commit_AttachUI m tag h = Panic v <-> m = nil /\ v = nil_dereference) /\
  (forall m, Request_ClientID m h <> Panic v) /\
  (forall m, Request_SignatureBytes m h <> Panic v) /\
  (forall m, Reply_SignatureBytes m h <> Panic v) /\
  (forall m, Prepare_UIBytes m h <> Panic v) /\
  (forall m, Commit_UIBytes m h <> Panic v) /\
  (forall m, Commit_Request m h <> Panic v).
Proof.
  split; [intros p; apply field_getter_panics|].
  split; [intros c; apply field_getter_panics|].
  split; [intros m; apply (assign_panics
    (fun x => {| Request_Msg := Request_Msg x; Request_Signature := tag |}))|].
  split; [intros m; apply (assign_panics
    (fun x => {| Reply_Msg := Reply_Msg x; Reply_Signature := tag |}))|].
  split; [intros m; apply (assign_panics
    (fun x => {| Prepare_Msg := Prepare_Msg x; Prepare_ReplicaUi := tag |}))|].
  split; [intros m; apply (assign_panics
    (fun x => {| Commit_Msg := Commit_Msg x; Commit_ReplicaUi := tag |}))|].
  split; [intros m; apply quiet_bind; [apply quiet_getter | intros; apply quiet_getter]|].
  split; [intros m; apply quiet_getter|].
  split; [intros m; apply quiet_getter|].
  split; [intros m; apply quiet_getter|].
  split; [intros m; apply quiet_getter|].
  intros m. apply quiet_bind; [apply quiet_getter | intros; apply quiet_getter].
Qed.

(** ** Outcomes that survive allocation *)

Lemma stable_ret {A} (a : A) : stable (ret a).
Proof. by intros h h' _ _. Qed.

Lemma stable_panic {A} v : stable (panic (A:=A) v).
Proof. by intros h h' _ _. Qed.

Lemma stable_bind {A B} (r : R A) (k : A -> R B) :
  stable r -> (forall a, stable (k a)) -> stable (bind r k).
Proof.
  intros Hr Hk h h' Hsub Hne. unfold bind in *.
  destruct (r h) as [a|v|] eqn:E; [| |done].
  - rewrite (Hr h h' Hsub) by (by rewrite E). rewrite E. by apply Hk.
  - rewrite (Hr h h' Hsub) by (by rewrite E). by rewrite E.
Qed.

Lemma stable_load {T} `{Stored T} (p : ptr T) : stable (load p).
Proof.
  intros h h' Hsub Hne. destruct p as [|a]; [done|].
  unfold load, object_at in *.
  destruct (h !! a) as [o|] eqn:E; [|done].
  by rewrite (lookup_weaken h h' a o E Hsub).
Qed.

Lemma stable_getter {T A} `{Stored T} (f : T -> A) z (p : ptr T) :
  stable (getter f z p).
Proof.
  destruct p as [|a]; [apply stable_ret|].
  apply stable_bind; [apply stable_load | intros; apply stable_ret].
Qed.

Lemma stable_walk {T A} `{Stored T} (inner : T -> R A) (p : ptr T) :
  (forall v, stable (inner v)) -> stable (walk inner p).
Proof.
  intros Hin. destruct p as [|a]; [apply stable_ret|].
  apply stable_bind; [apply stable_load|]. intros v.
  apply stable_bind; [apply Hin | intros; apply stable_ret].
Qed.

Lemma stable_walk_Request p : stable (walk_Request p).
Proof.
  apply stable_walk. intros v.
  apply stable_bind; [|intros; apply stable_ret].
  apply stable_walk. intros; apply stable_ret.
Qed.

Lemma stable_marshal_or_panic pb : stable (marshal_or_panic pb).
Proof. intros h h' _ _. apply marshal_or_panic_pure. Qed.

Lemma stable_UnwrapMessage e : stable (UnwrapMessage e).
Proof.
  apply stable_bind; [apply stable_load|]. intros v.
  destruct (Message_Type v);
    first [ apply stable_panic
          | apply stable_bind; [apply stable_load | intros; apply stable_ret] ].
Qed.

Lemma stable_envelope_tag e : stable (envelope_tag e).
Proof. apply stable_bind; [apply stable_load | intros; apply stable_ret]. Qed.

(** Every accessor keeps its outcome when the store grows. *)
Lemma accessors_agree_subseteq (h h' : Heap) : h ⊆ h' -> accessors_agree h h'.
Proof.
  intros Hsub. unfold accessors_agree.
  repeat split; intros q; (apply stable_bind || apply stable_getter);
    try apply stable_getter; try apply stable_load; intros;
    try apply stable_getter; try done.
  - apply stable_bind; [|intros; apply stable_marshal_or_panic].
    apply stable_walk. intros; apply stable_ret.
  - apply stable_bind; [|intros; apply stable_marshal_or_panic].
    apply stable_walk. intros; apply stable_ret.
  - apply stable_bind; [|intros; apply stable_marshal_or_panic].
    apply stable_walk. intros.
    apply stable_bind; [apply stable_walk_Request | intros; apply stable_ret].
  - apply stable_bind; [|intros; apply stable_marshal_or_panic].
    apply stable_walk. intros.
    apply stable_bind; [apply stable_walk_Request | intros; apply stable_ret].
  - match goal with |- stable (match Message_Type ?v with _ => _ end) =>
      destruct (Message_Type v) end;
    first [ apply stable_panic
          | apply stable_bind; [apply stable_load | intros; apply stable_ret] ].
Qed.

(** ** More on the envelope *)

(** WrapMessage of a message of one of the four kinds: the envelope is
    at an address that was free, and the store only grew. *)
Lemma WrapMessage_alloc (h : Heap) (m : any) (k : kind) :
  kind_of m = Some k ->
  exists b h',
    WrapMessage m h = Ok (at_ b, h') /\
    h !! b = None /\ h ⊆ h' /\
    UnwrapMessage (at_ b) h' = Ok m /\
    envelope_tag (at_ b) h' = Ok (Some k).
Proof.
  intros Hk.
  destruct m as [|m|m|m|m|dyn]; simplify_eq/=.
  - destruct (new_then_new h {| Message_Request_Request := m |}
                (fun t => {| Message_Type := Type_Request t |}))
      as (a & b & h' & Hrun & Ha & Hb & _ & Hfree & Hsub).
    exists b, h'. split; [exact Hrun|]. split; [done|]. split; [done|].
    unfold UnwrapMessage, envelope_tag, bind.
    rewrite (load_points_to _ _ _ Hb). cbn [Message_Type tag_of].
    by rewrite (load_points_to _ _ _ Ha).
  - destruct (new_then_new h {| Message_Reply_Reply := m |}
                (fun t => {| Message_Type := Type_Reply t |}))
      as (a & b & h' & Hrun & Ha & Hb & _ & Hfree & Hsub).
    exists b, h'. split; [exact Hrun|]. split; [done|]. split; [done|].
    unfold UnwrapMessage, envelope_tag, bind.
    rewrite (load_points_to _ _ _ Hb). cbn [Message_Type tag_of].
    by rewrite (load_points_to _ _ _ Ha).
  - destruct (new_then_new h {| Message_Prepare_Prepare := m |}
                (fun t => {| Message_Type := Type_Prepare t |}))
      as (a & b & h' & Hrun & Ha & Hb & _ & Hfree & Hsub).
    exists b, h'. split; [exact Hrun|]. split; [done|]. split; [done|].
    unfold UnwrapMessage, envelope_tag, bind.
    rewrite (load_points_to _ _ _ Hb). cbn [Message_Type tag_of].
    by rewrite (load_points_to _ _ _ Ha).
  - destruct (new_then_new h {| Message_Commit_Commit := m |}
                (fun t => {| Message_Type := Type_Commit t |}))
      as (a & b & h' & Hrun & Ha & Hb & _ & Hfree & Hsub).
    exists b, h'. split; [exact Hrun|]. split; [done|]. split; [done|].
    unfold UnwrapMessage, envelope_tag, bind.
    rewrite (load_points_to _ _ _ Hb). cbn [Message_Type tag_of].
    by rewrite (load_points_to _ _ _ Ha).
Qed.

(** A value that UnwrapMessage returns has the kind that the envelope's
    tag names. *)
Lemma UnwrapMessage_Ok_kind (h : Heap) (e : ptr Message) (m : any) :
  UnwrapMessage e h = Ok m ->
  exists k, kind_of m = Some k /\ envelope_tag e h = Ok (Some k).
Proof.
  unfold UnwrapMessage, envelope_tag, bind.
  destruct (load e h) as [v| |]; [|done..].
  destruct (Message_Type v) as [|t|t|t|t|dyn]; simpl; try done;
    destruct (load t h); intros [= <-]; eauto.
Qed.

Lemma load_Ok_allocated {T} `{Stored T} (p : ptr T) (h : Heap) v :
  load p h = Ok v -> exists a, p = at_ a /\ is_Some (h !! a).
Proof.
  destruct p as [|a]; [done|]. unfold load, object_at. intros Hl.
  exists a. split; [done|]. by destruct (h !! a).
Qed.

(** X10. Wrapping what UnwrapMessage returned: the value is of one of the
    four kinds, so WrapMessage succeeds; it makes a second envelope,
    different from the first, with the same tag; both envelopes unwrap
    to the same value. *)
Theorem UnwrapMessage_WrapMessage (h : Heap) (e : ptr Message) (m : any) :
  UnwrapMessage e h = Ok m ->
  exists k e' h',
    kind_of m = Some k /\
    envelope_tag e h = Ok (Some k) /\
    WrapMessage m h = Ok (e', h') /\
    e' <> e /\
    envelope_tag e' h' = Ok (Some k) /\
    UnwrapMessage e' h' = Ok m /\
    UnwrapMessage e h' = Ok m.
Proof.
  intros Hun.
  destruct (UnwrapMessage_Ok_kind h e m Hun) as (k & Hk & Htag).
  destruct (WrapMessage_alloc h m k Hk) as (b & h' & Hrun & Hfree & Hsub & Hun' & Htag').
  exists k, (at_ b), h'.
  split; [done|]. split; [done|]. split; [done|].
  split; [|split; [done|split; [done|]]].
  - intros <-. unfold UnwrapMessage, bind in Hun.
    destruct (load (at_ b) h) as [v| |] eqn:E; [|done..].
    destruct (load_Ok_allocated _ _ _ E) as (a & [= <-] & Hsome).
    rewrite Hfree in Hsome. by destruct Hsome.
  - rewrite (stable_UnwrapMessage e h h' Hsub) by (by rewrite Hun). done.
Qed.

(** X11. Two envelopes made one after the other do not disturb each other:
    they are at different addresses and, in the final store, each
    unwraps to the message it was made from. *)
Theorem WrapMessage_twice (h : Heap) (m1 m2 : any) (k1 k2 : kind) :
  kind_of m1 = Some k1 ->
  kind_of m2 = Some k2 ->
  exists e1 h1 e2 h2,
    WrapMessage m1 h = Ok (e1, h1) /\
    WrapMessage m2 h1 = Ok (e2, h2) /\
    e1 <> e2 /\
    UnwrapMessage e1 h2 = Ok m1 /\
    UnwrapMessage e2 h2 = Ok m2.
Proof.
  intros Hk1 Hk2.
  destruct (WrapMessage_alloc h m1 k1 Hk1) as (b1 & h1 & Hrun1 & _ & _ & Hun1 & _).
  destruct (WrapMessage_alloc h1 m2 k2 Hk2) as (b2 & h2 & Hrun2 & Hfree & Hsub & Hun2 & _).
  exists (at_ b1), h1, (at_ b2), h2.
  split; [done|]. split; [done|]. split; [|split; [|done]].
  - intros [= <-]. unfold UnwrapMessage, bind in Hun1.
    destruct (load (at_ b1) h1) as [v| |] eqn:E; [|done..].
    destruct (load_Ok_allocated _ _ _ E) as (a & [= <-] & Hsome).
    rewrite Hfree in Hsome. by destruct Hsome.
  - rewrite (stable_UnwrapMessage (at_ b1) h1 h2 Hsub) by (by rewrite Hun1). done.
Qed.

(** X12. The two panics of UnwrapMessage. On the nil envelope pointer it
    panics on the nil dereference. On an envelope of the store it
    panics on a nil dereference exactly when the Type field holds a nil
    pointer of one of the four variant types, which the type switch
    matches before the field is read; it panics with "Unknown message
    type" exactly when Type is the nil interface or of another type;
    it panics with nothing else. *)
Theorem UnwrapMessage_panics (h : Heap) :
  UnwrapMessage nil h = Panic nil_dereference /\
  (forall e v, load e h = Ok v ->
     (UnwrapMessage e h = Panic nil_dereference <-> nil_variant (Message_Type v)) /\
     (forall s, UnwrapMessage e h = Panic (panic_string s) <->
        s = "Unknown message type"%string /\ tag_of (Message_Type v) = None) /\
     (forall err, UnwrapMessage e h <> Panic (panic_error err))).
Proof.
  split; [done|]. intros e v Hl.
  unfold UnwrapMessage, bind, nil_variant. rewrite Hl.
  destruct (Message_Type v) as [|t|t|t|t|dyn].
  2-5: destruct t as [|b];
       [|destruct (load (at_ b) h) as [w|pv|] eqn:E';
         [|by destruct (quiet_load_at b h pv E')|]].
  all: cbn [load tag_of].
  all: unfold panic, ret in *; intuition (simplify_eq; eauto).
Qed.

(** ** Allocation and the accessors *)

Lemma Commit_Prepare_grows (h : Heap) (c : ptr Commit) p h' :
  Commit_Prepare c h = Ok (p, h') ->
  exists b, p = at_ b /\ h !! b = None /\ h ⊆ h'.
Proof.
  unfold Commit_Prepare, mbind, get.
  destruct (Commit_GetMsg c h) as [msg| |]; [|done..].
  destruct (Commit_M_GetView msg h) as [view| |]; [|done..].
  destruct (Commit_M_GetPrimaryId msg h) as [primary| |]; [|done..].
  destruct (Commit_M_GetRequest msg h) as [request| |]; [|done..].
  destruct (new_fresh h {| Prepare_M_View := view; Prepare_M_ReplicaId := primary;
                           Prepare_M_Request := request |}) as (a & -> & Ha).
  match goal with |- context [Commit_M_GetPrimaryUi msg ?h1] =>
    destruct (Commit_M_GetPrimaryUi msg h1) as [ui| |]; [|done..];
    destruct (new_fresh h1 {| Prepare_Msg := at_ a; Prepare_ReplicaUi := ui |})
      as (b & -> & Hb)
  end.
  intros [= <- <-]. exists b. split; [done|].
  assert (a <> b) as Hne by (intros <-; by rewrite lookup_insert_eq in Hb).
  split; [by rewrite lookup_insert_ne in Hb|].
  etrans; [by apply (insert_subseteq h a)|]. by apply insert_subseteq.
Qed.

(** X13. WrapMessage and Commit.Prepare only allocate: what they return is
    at an address that was free, and every accessor of the package has
    on every receiver the outcome, value or panic, that it had before. *)
Theorem allocation_keeps_accessors (h h' : Heap) :
  (forall m e, WrapMessage m h = Ok (e, h') ->
     (exists b, e = at_ b /\ h !! b = None) /\ accessors_agree h h') /\
  (forall c p, Commit_Prepare c h = Ok (p, h') ->
     (exists b, p = at_ b /\ h !! b = None) /\ accessors_agree h h').
Proof.
  split.
  - intros m e Hrun.
    assert (exists k, kind_of m = Some k) as [k Hk].
    { destruct m; simpl; eauto; done. }
    destruct (WrapMessage_alloc h m k Hk) as (b & h'' & Hrun' & Hfree & Hsub & _).
    rewrite Hrun in Hrun'. injection Hrun' as -> ->.
    split; [by exists b | by apply accessors_agree_subseteq].
  - intros c p Hrun.
    destruct (Commit_Prepare_grows h c p h' Hrun) as (b & -> & Hfree & Hsub).
    split; [by exists b | by apply accessors_agree_subseteq].
Qed.

(** ** More on Commit.Prepare *)

Lemma Commit_content_points_to (h : Heap) (c : ptr Commit) cv cm :
  points_to h c cv ->
  points_to h (Commit_Msg cv) cm ->
  Commit_content c h =
    Ok (Commit_M_View cm, Commit_M_PrimaryId cm, Commit_M_Request cm,
        Commit_M_PrimaryUi cm).
Proof.
  intros Hc Hm.
  unfold Commit_content, bind, Commit_GetMsg, Commit_M_GetView,
    Commit_M_GetPrimaryId, Commit_M_GetRequest, Commit_M_GetPrimaryUi.
  rewrite (getter_points_to Commit_Msg nil _ _ _ Hc).
  rewrite (getter_points_to Commit_M_View 0 _ _ _ Hm).
  rewrite (getter_points_to Commit_M_PrimaryId 0 _ _ _ Hm).
  rewrite (getter_points_to Commit_M_Request nil _ _ _ Hm).
  by rewrite (getter_points_to Commit_M_PrimaryUi None _ _ _ Hm).
Qed.

(** Commit.Prepare on a Commit that is in the store with its inner
    message: the two new objects and their fields. *)
Lemma Commit_Prepare_points_to (h : Heap) (c : ptr Commit) cv cm :
  points_to h c cv ->
  points_to h (Commit_Msg cv) cm ->
  exists a b h',
    Commit_Prepare c h = Ok (at_ b, h') /\
    points_to h' (at_ a) {| Prepare_M_View := Commit_M_View cm;
                            Prepare_M_ReplicaId := Commit_M_PrimaryId cm;
                            Prepare_M_Request := Commit_M_Request cm |} /\
    points_to h' (at_ b) {| Prepare_Msg := at_ a;
                            Prepare_ReplicaUi := Commit_M_PrimaryUi cm |} /\
    h !! a = None /\ h !! b = None /\ h ⊆ h'.
Proof.
  intros Hc Hm.
  apply (Commit_Prepare_run h c (Commit_Msg cv)); by apply getter_points_to.
Qed.

Lemma points_to_allocated {T} `{Stored T} (h : Heap) a (v : T) :
  points_to h (at_ a) v -> h !! a <> None.
Proof. intros (a' & [= <-] & Ha). by rewrite Ha. Qed.

(** X14. Commits that embed the same view, primaryID, request and primaryUI,
    whichever replicas wrote them, give Prepares with the same payload
    and the same UI: what the primary's UI is checked against does not
    depend on the Commit it is taken from. *)
Theorem Commit_Prepare_same_Prepare (h : Heap) (c1 c2 : ptr Commit)
    (cv1 cv2 : Commit) (cm1 cm2 : Commit_M) :
  points_to h c1 cv1 -> points_to h (Commit_Msg cv1) cm1 ->
  points_to h c2 cv2 -> points_to h (Commit_Msg cv2) cm2 ->
  Commit_content c1 h = Commit_content c2 h ->
  exists p1 h1 p2 h2,
    Commit_Prepare c1 h = Ok (p1, h1) /\
    Commit_Prepare c2 h1 = Ok (p2, h2) /\
    p1 <> p2 /\
    Prepare_Payload p1 h2 = Prepare_Payload p2 h2 /\
    Prepare_UIBytes p1 h2 = Prepare_UIBytes p2 h2.
Proof.
  intros Hc1 Hm1 Hc2 Hm2.
  rewrite (Commit_content_points_to h c1 cv1 cm1 Hc1 Hm1).
  rewrite (Commit_content_points_to h c2 cv2 cm2 Hc2 Hm2).
  intros [= Hview Hprimary Hrequest Hui].
  destruct (Commit_Prepare_points_to h c1 cv1 cm1 Hc1 Hm1)
    as (a1 & b1 & h1 & Hrun1 & Ha1 & Hb1 & _ & _ & Hsub1).
  pose proof (points_to_weaken h h1 _ _ Hsub1 Hc2) as Hc2'.
  pose proof (points_to_weaken h h1 _ _ Hsub1 Hm2) as Hm2'.
  destruct (Commit_Prepare_points_to h1 c2 cv2 cm2 Hc2' Hm2')
    as (a2 & b2 & h2 & Hrun2 & Ha2 & Hb2 & _ & Hfree & Hsub2).
  exists (at_ b1), h1, (at_ b2), h2.
  split; [done|]. split; [done|]. split.
  { intros [= <-]. by apply (points_to_allocated h1 b1 _ Hb1). }
  pose proof (points_to_weaken h1 h2 _ _ Hsub2 Ha1) as Ha1'.
  pose proof (points_to_weaken h1 h2 _ _ Hsub2 Hb1) as Hb1'.
  apply (Prepare_same_content h2 (at_ b1) (at_ b2) _ _ _ _ Hb1' Ha1' Hb2 Ha2).
  rewrite (Prepare_content_points_to h2 _ _ _ Hb1' Ha1').
  rewrite (Prepare_content_points_to h2 _ _ _ Hb2 Ha2).
  cbn [Prepare_M_View Prepare_M_ReplicaId Prepare_M_Request Prepare_ReplicaUi].
  by rewrite Hview, Hprimary, Hrequest, Hui.
Qed.

(** X15. The Prepare returned by Commit.Prepare is a copy: attaching another
    UI to it does not reach the Commit, which still has the same content
    and payload, and a second Commit.Prepare returns a third object that
    again carries the Commit's primaryUI. *)
Theorem Commit_Prepare_is_a_copy (h : Heap) (c : ptr Commit) (cv : Commit)
    (cm : Commit_M) (ui : bytes) :
  points_to h c cv -> points_to h (Commit_Msg cv) cm ->
  exists p h1 h2 p' h3,
    Commit_Prepare c h = Ok (p, h1) /\
    Prepare_AttachUI p ui h1 = Ok (tt, h2) /\
    Commit_content c h2 = Commit_content c h /\
    Commit_Payload c h2 = Commit_Payload c h1 /\
    Commit_Prepare c h2 = Ok (p', h3) /\
    p' <> p /\
    Prepare_UIBytes p h3 = Ok ui /\
    Prepare_UIBytes p' h3 = Ok (Commit_M_PrimaryUi cm).
Proof.
  intros Hc Hm.
  destruct (Commit_Prepare_points_to h c cv cm Hc Hm)
    as (a & b & h1 & Hrun & Ha & Hb & _ & _ & Hsub).
  pose proof Hb as (b' & [= <-] & Hb1).
  set (pv := {| Prepare_Msg := at_ a; Prepare_ReplicaUi := Commit_M_PrimaryUi cm |}) in *.
  set (pv' := {| Prepare_Msg := Prepare_Msg pv; Prepare_ReplicaUi := ui |}).
  pose proof (points_to_weaken h h1 _ _ Hsub Hc) as Hc1.
  pose proof (points_to_weaken h h1 _ _ Hsub Hm) as Hm1.
  pose proof (points_to_insert_apart (T:=Commit) h1 b pv pv' c cv Hb1 Hc1) as Hc2.
  pose proof (points_to_insert_apart (T:=Commit_M) h1 b pv pv' _ cm Hb1 Hm1) as Hm2.
  destruct (Commit_Prepare_points_to _ c cv cm Hc2 Hm2)
    as (a' & b2 & h3 & Hrun' & Ha' & Hb' & _ & Hfree & Hsub').
  exists (at_ b), h1, (<[b := to_object pv']> h1), (at_ b2), h3.
  split; [done|].
  split; [exact (Prepare_AttachUI_run h1 b pv ui Hb1)|].
  split.
  { rewrite (Commit_content_points_to _ c cv cm Hc2 Hm2).
    by rewrite (Commit_content_points_to h c cv cm Hc Hm). }
  split.
  { apply Commit_Payload_agree.
    - by apply getter_agree, (agree_insert_apart (T:=Commit) h1 b pv pv').
    - by apply (agree_insert_apart (T:=Commit_M) h1 b pv pv').
    - by apply (agree_insert_apart (T:=Request) h1 b pv pv').
    - by apply (agree_insert_apart (T:=Request_M) h1 b pv pv'). }
  split; [done|].
  split.
  { intros [= ->]. by rewrite lookup_insert_eq in Hfree. }
  split.
  - exact (getter_points_to Prepare_ReplicaUi None h3 (at_ b) pv'
             (points_to_weaken _ h3 _ _ Hsub' (points_to_insert h1 b pv'))).
  - exact (getter_points_to Prepare_ReplicaUi None _ _ _ Hb').
Qed.

(** X16. Commit.Prepare does not copy the request: the Prepare and the
    Commit point to one Request. A signature attached through the
    pointer that Commit.Request() returns is in the payload of both. *)
Theorem Commit_Prepare_shares_request (h : Heap) (c : ptr Commit) (cv : Commit)
    (cm : Commit_M) (a : addr) (rv : Request) (msg : option Request_M) (tag : bytes) :
  points_to h c cv -> points_to h (Commit_Msg cv) cm ->
  Commit_M_Request cm = at_ a ->
  h !! a = Some (to_object rv) ->
  walk_Request_M (Request_Msg rv) h = Ok msg ->
  exists p h1 h2,
    Commit_Prepare c h = Ok (p, h1) /\
    Commit_Request c h1 = Ok (at_ a) /\
    Request_AttachSignature (at_ a) tag h1 = Ok (tt, h2) /\
    Prepare_Payload p h2 =
      marshal_or_panic
        (pb_Prepare_M
           (Some {| pb_Prepare_M_View := Commit_M_View cm;
                    pb_Prepare_M_ReplicaId := Commit_M_PrimaryId cm;
                    pb_Prepare_M_Request :=
                      Some {| pb_Request_Msg := msg;
                              pb_Request_Signature := tag |} |})) h2 /\
    Commit_Payload c h2 =
      marshal_or_panic
        (pb_Commit_M
           (Some {| pb_Commit_M_View := Commit_M_View cm;
                    pb_Commit_M_ReplicaId := Commit_M_ReplicaId cm;
                    pb_Commit_M_PrimaryId := Commit_M_PrimaryId cm;
                    pb_Commit_M_Request :=
                      Some {| pb_Request_Msg := msg;
                              pb_Request_Signature := tag |};
                    pb_Commit_M_PrimaryUi := Commit_M_PrimaryUi cm |})) h2.
Proof.
  intros Hc Hm Hreq Hr Hmsg.
  destruct (Commit_Prepare_points_to h c cv cm Hc Hm)
    as (a1 & b & h1 & Hrun & Ha & Hb & _ & _ & Hsub).
  pose proof (points_to_weaken h h1 _ _ Hsub Hc) as Hc1.
  pose proof (points_to_weaken h h1 _ _ Hsub Hm) as Hm1.
  pose proof (lookup_weaken h h1 a _ Hr Hsub) as Hr1.
  assert (walk_Request_M (Request_Msg rv) h1 = Ok msg) as Hmsg1.
  { rewrite <- Hmsg. apply (stable_walk ret); [intros; apply stable_ret|done|].
    fold walk_Request_M. by rewrite Hmsg. }
  exists (at_ b), h1,
    (<[a := to_object {| Request_Msg := Request_Msg rv; Request_Signature := tag |}]> h1).
  split; [done|].
  split.
  { unfold Commit_Request, bind, Commit_GetMsg, Commit_M_GetRequest.
    rewrite (getter_points_to Commit_Msg nil _ _ _ Hc1).
    by rewrite (getter_points_to Commit_M_Request nil _ _ _ Hm1), Hreq. }
  split; [exact (Request_AttachSignature_run h1 a rv tag Hr1)|].
  split.
  - apply (Prepare_Payload_after_signature h1 a rv msg tag (at_ b) _ _ Hr1 Hmsg1 Hb Ha).
    exact Hreq.
  - exact (Commit_Payload_after_signature h1 a rv msg tag c cv cm Hr1 Hmsg1 Hc1 Hm1 Hreq).
Qed.

End Messages.

(** ** The theorems at the sample store *)

Lemma attach_round_trip_witness :
  (exists h', Request_AttachSignature (at_ 2%positive) (Some [Byte.x07]) sample_heap = Ok (tt, h') /\
              Request_SignatureBytes (at_ 2%positive) h' = Ok (Some [Byte.x07])) /\
  (exists h', Reply_AttachSignature (at_ 4%positive) (Some [Byte.x07]) sample_heap = Ok (tt, h') /\
              Reply_SignatureBytes (at_ 4%positive) h' = Ok (Some [Byte.x07])) /\
  (exists h', Prepare_AttachUI (at_ 6%positive) None sample_heap = Ok (tt, h') /\
              Prepare_UIBytes (at_ 6%positive) h' = Ok None) /\
  (exists h', Commit_AttachUI (at_ 8%positive) (Some []) sample_heap = Ok (tt, h') /\
              Commit_UIBytes (at_ 8%positive) h' = Ok (Some [])).
Proof.
  destruct (attach_round_trip sample_Marshal) as (H1 & H2 & H3 & H4).
  split; [|split; [|split]].
  - apply (H1 sample_heap (at_ 2%positive) sample_Request).
    exists 2%positive. split; reflexivity.
  - apply (H2 sample_heap (at_ 4%positive) sample_Reply).
    exists 4%positive. split; reflexivity.
  - apply (H3 sample_heap (at_ 6%positive) sample_Prepare).
    exists 6%positive. split; reflexivity.
  - apply (H4 sample_heap (at_ 8%positive) sample_Commit).
    exists 8%positive. split; reflexivity.
Defined.

Lemma attach_frame_witness :
  (exists h', Request_AttachSignature (at_ 2%positive) None sample_heap = Ok (tt, h') /\
     Request_Payload sample_Marshal (at_ 2%positive) h' =
       Request_Payload sample_Marshal (at_ 2%positive) sample_heap /\
     Request_ClientID (at_ 2%positive) h' = Request_ClientID (at_ 2%positive) sample_heap) /\
  (exists h', Reply_AttachSignature (at_ 4%positive) (Some [Byte.x07]) sample_heap = Ok (tt, h') /\
     Reply_Payload sample_Marshal (at_ 4%positive) h' =
       Reply_Payload sample_Marshal (at_ 4%positive) sample_heap) /\
  (exists h', Prepare_AttachUI (at_ 6%positive) (Some [Byte.x09]) sample_heap = Ok (tt, h') /\
     Prepare_Payload sample_Marshal (at_ 6%positive) h' =
       Prepare_Payload sample_Marshal (at_ 6%positive) sample_heap /\
     Prepare_ReplicaID (at_ 6%positive) h' = Prepare_ReplicaID (at_ 6%positive) sample_heap) /\
  (exists h', Commit_AttachUI (at_ 8%positive) (Some [Byte.x09]) sample_heap = Ok (tt, h') /\
     Commit_Payload sample_Marshal (at_ 8%positive) h' =
       Commit_Payload sample_Marshal (at_ 8%positive) sample_heap /\
     Commit_ReplicaID (at_ 8%positive) h' = Commit_ReplicaID (at_ 8%positive) sample_heap).
Proof.
  destruct (attach_frame sample_Marshal) as (H1 & H2 & H3 & H4 & H5).
  split; [|split; [|split]].
  - destruct (H1 sample_heap (at_ 2%positive) sample_Request None)
      as (h' & v' & Hrun & _ & _ & _ & Hpay);
      [exists 2%positive; split; reflexivity|].
    destruct (H2 sample_heap (at_ 2%positive) sample_Request None)
      as (h'' & Hrun' & Hid);
      [exists 2%positive; split; reflexivity|].
    exists h'. split; [exact Hrun|]. split; [exact Hpay|].
    rewrite Hrun in Hrun'. injection Hrun' as ->. exact Hid.
  - destruct (H3 sample_heap (at_ 4%positive) sample_Reply (Some [Byte.x07]))
      as (h' & v' & Hrun & _ & _ & _ & Hpay);
      [exists 4%positive; split; reflexivity|].
    exists h'. split; [exact Hrun | exact Hpay].
  - destruct (H4 sample_heap (at_ 6%positive) sample_Prepare (Some [Byte.x09]))
      as (h' & v' & Hrun & _ & _ & _ & Hpay & Hid);
      [exists 6%positive; split; reflexivity|].
    exists h'. split; [exact Hrun|]. split; [exact Hpay | exact Hid].
  - destruct (H5 sample_heap (at_ 8%positive) sample_Commit (Some [Byte.x09]))
      as (h' & v' & Hrun & _ & _ & _ & Hpay & Hid);
      [exists 8%positive; split; reflexivity|].
    exists h'. split; [exact Hrun|]. split; [exact Hpay | exact Hid].
Defined.

Lemma WrapMessage_UnwrapMessage_witness :
  exists e h',
    WrapMessage (any_Prepare (at_ 6%positive)) sample_heap = Ok (e, h') /\
    UnwrapMessage e h' = Ok (any_Prepare (at_ 6%positive)) /\
    envelope_tag e h' = Ok (Some KPrepare) /\
    sample_heap ⊆ h'.
Proof.
  apply (WrapMessage_UnwrapMessage sample_heap (any_Prepare (at_ 6%positive)) KPrepare).
  reflexivity.
Defined.

Lemma unknown_variant_panics_witness :
  WrapMessage any_nil sample_heap = Panic (panic_string "Unknown message type") /\
  WrapMessage (any_other "string") sample_heap = Panic (panic_string "Unknown message type") /\
  UnwrapMessage (at_ 9%positive) sample_heap = Panic (panic_string "Unknown message type") /\
  UnwrapMessage (at_ 10%positive) sample_heap = Panic (panic_string "Unknown message type").
Proof.
  destruct unknown_variant_panics as [Hwrap Hunwrap].
  split; [|split; [|split]].
  - apply Hwrap. reflexivity.
  - apply Hwrap. reflexivity.
  - apply (Hunwrap sample_heap (at_ 9%positive) {| Message_Type := Type_nil |}).
    + exists 9%positive. split; reflexivity.
    + reflexivity.
  - apply (Hunwrap sample_heap (at_ 10%positive)
             {| Message_Type := Type_other "Message_Hello" |}).
    + exists 10%positive. split; reflexivity.
    + reflexivity.
Defined.

Lemma Commit_Prepare_content_witness :
  exists p h' view primary request ui,
    Commit_Prepare (at_ 8%positive) sample_heap = Ok (p, h') /\
    Commit_content (at_ 8%positive) sample_heap = Ok (view, primary, request, ui) /\
    Commit_content (at_ 8%positive) h' = Ok (view, primary, request, ui) /\
    Prepare_content p h' = Ok (view, primary, request, ui) /\
    Prepare_ReplicaID p h' = Ok primary /\
    Prepare_UIBytes p h' = Ok ui /\
    Commit_Request (at_ 8%positive) sample_heap = Ok request /\
    Commit_Request (at_ 8%positive) h' = Ok request /\
    sample_heap ⊆ h' /\
    Prepare_Payload sample_Marshal p h' =
      Prepare_Payload sample_Marshal (at_ 6%positive) h' /\
    Prepare_UIBytes p h' = Prepare_UIBytes (at_ 6%positive) h'.
Proof.
  destruct (Commit_Prepare_content sample_Marshal sample_heap (at_ 8%positive) sample_Commit)
    as (p & h' & view & primary & request & ui & H1 & H2 & H3 & H4 & H5 & H6 & H7 & H8 & H9 & H10).
  - exists 8%positive. split; reflexivity.
  - right. exists sample_Commit_M, 7%positive. split; reflexivity.
  - exists p, h', view, primary, request, ui.
    repeat (split; [assumption|]).
    apply (H10 (at_ 6%positive) sample_Prepare sample_Prepare_M).
    + exists 6%positive. split; reflexivity.
    + exists 5%positive. split; reflexivity.
    + rewrite <- H2. reflexivity.
Defined.

Lemma Prepare_accessors_witness :
  Prepare_ReplicaID (at_ 22%positive) sample_Prepares = Ok 1 /\
  Prepare_UIBytes (at_ 22%positive) sample_Prepares = Ok (Some [Byte.x0b]) /\
  Prepare_Payload field_Marshal (at_ 22%positive) sample_Prepares =
    Ok (Some [Byte.x05; Byte.x01; Byte.x01; Byte.x05; Byte.x58; Byte.xaa]) /\
  Prepare_ReplicaID (at_ 23%positive) sample_Prepares = Ok 0 /\
  Prepare_Payload field_Marshal (at_ 23%positive) sample_Prepares =
    Panic (panic_error "proto: Marshal called with nil").
Proof.
  destruct (Prepare_accessors field_Marshal sample_Prepares (at_ 22%positive)
              sample_Prepare_5 (Some sample_Prepare_M_5) (Some sample_Request)
              (Some sample_Request_M)) as (H1 & H2 & (H3 & _) & _).
  { exists 22%positive. split; reflexivity. }
  { exists 21%positive. split; reflexivity. }
  { exists 2%positive. split; reflexivity. }
  { exists 1%positive. split; reflexivity. }
  destruct (Prepare_accessors field_Marshal sample_Prepares (at_ 23%positive)
              sample_Prepare_empty None None None) as (H4 & _ & (_ & H5) & _).
  { exists 23%positive. split; reflexivity. }
  { reflexivity. }
  { reflexivity. }
  { reflexivity. }
  split; [exact H1|]. split; [exact H2|].
  split; [apply H3; reflexivity|].
  split; [exact H4|].
  apply (H5 None). reflexivity.
Defined.

(** C5, as the claim is worded: not every Prepare has a payload. On a
    Prepare without inner message, GetMsg() is nil, the encoder answers
    with its error for a nil message, and Payload() panics with that
    error: it returns no serialized message data. *)
Lemma Prepare_Payload_without_Msg :
  points_to sample_Prepares (at_ 23%positive) sample_Prepare_empty /\
  Prepare_Payload field_Marshal (at_ 23%positive) sample_Prepares =
    Panic (panic_error "proto: Marshal called with nil") /\
  ~ (forall (h : Heap) (p : ptr Prepare) (pv : Prepare),
       points_to h p pv ->
       exists data, Prepare_Payload field_Marshal p h = Ok data).
Proof.
  split; [exists 23%positive; split; reflexivity|].
  split; [reflexivity|].
  intros Hall.
  destruct (Hall sample_Prepares (at_ 23%positive) sample_Prepare_empty) as (data & Hdata).
  - exists 23%positive; split; reflexivity.
  - discriminate Hdata.
Qed.

Lemma Commit_accessors_witness :
  Commit_ReplicaID (at_ 8%positive) sample_heap = Ok 2 /\
  Commit_UIBytes (at_ 8%positive) sample_heap = Ok (Some [Byte.x02]).
Proof.
  destruct (Commit_accessors sample_heap 8%positive 7%positive
              sample_Commit sample_Commit_M) as (H1 & H2 & _);
    [reflexivity..|].
  split; [exact H1 | exact H2].
Defined.

(** ** The further theorems at the sample store *)

Lemma attach_last_wins_witness :
  (exists h1 h2,
     Request_AttachSignature (at_ 2%positive) None sample_heap = Ok (tt, h1) /\
     Request_AttachSignature (at_ 2%positive) (Some [Byte.x07]) h1 = Ok (tt, h2) /\
     Request_AttachSignature (at_ 2%positive) (Some [Byte.x07]) sample_heap = Ok (tt, h2)) /\
  (exists h1 h2,
     Reply_AttachSignature (at_ 4%positive) None sample_heap = Ok (tt, h1) /\
     Reply_AttachSignature (at_ 4%positive) (Some [Byte.x07]) h1 = Ok (tt, h2) /\
     Reply_AttachSignature (at_ 4%positive) (Some [Byte.x07]) sample_heap = Ok (tt, h2)) /\
  (exists h1 h2,
     Prepare_AttachUI (at_ 6%positive) None sample_heap = Ok (tt, h1) /\
     Prepare_AttachUI (at_ 6%positive) (Some [Byte.x07]) h1 = Ok (tt, h2) /\
     Prepare_AttachUI (at_ 6%positive) (Some [Byte.x07]) sample_heap = Ok (tt, h2)) /\
  (exists h1 h2,
     Commit_AttachUI (at_ 8%positive) None sample_heap = Ok (tt, h1) /\
     Commit_AttachUI (at_ 8%positive) (Some [Byte.x07]) h1 = Ok (tt, h2) /\
     Commit_AttachUI (at_ 8%positive) (Some [Byte.x07]) sample_heap = Ok (tt, h2)).
Proof.
  destruct (attach_last_wins sample_heap None (Some [Byte.x07])) as (H1 & H2 & H3 & H4).
  split; [|split; [|split]].
  - apply (H1 (at_ 2%positive) sample_Request). exists 2%positive; split; reflexivity.
  - apply (H2 (at_ 4%positive) sample_Reply). exists 4%positive; split; reflexivity.
  - apply (H3 (at_ 6%positive) sample_Prepare). exists 6%positive; split; reflexivity.
  - apply (H4 (at_ 8%positive) sample_Commit). exists 8%positive; split; reflexivity.
Defined.

Lemma attach_current_tag_witness :
  (exists tag, Request_SignatureBytes (at_ 2%positive) sample_heap = Ok tag /\
               Request_AttachSignature (at_ 2%positive) tag sample_heap = Ok (tt, sample_heap)) /\
  (exists tag, Reply_SignatureBytes (at_ 4%positive) sample_heap = Ok tag /\
               Reply_AttachSignature (at_ 4%positive) tag sample_heap = Ok (tt, sample_heap)) /\
  (exists tag, Prepare_UIBytes (at_ 6%positive) sample_heap = Ok tag /\
               Prepare_AttachUI (at_ 6%positive) tag sample_heap = Ok (tt, sample_heap)) /\
  (exists tag, Commit_UIBytes (at_ 8%positive) sample_heap = Ok tag /\
               Commit_AttachUI (at_ 8%positive) tag sample_heap = Ok (tt, sample_heap)).
Proof.
  destruct (attach_current_tag sample_heap) as (H1 & H2 & H3 & H4).
  split; [|split; [|split]].
  - apply (H1 (at_ 2%positive) sample_Request). exists 2%positive; split; reflexivity.
  - apply (H2 (at_ 4%positive) sample_Reply). exists 4%positive; split; reflexivity.
  - apply (H3 (at_ 6%positive) sample_Prepare). exists 6%positive; split; reflexivity.
  - apply (H4 (at_ 8%positive) sample_Commit). exists 8%positive; split; reflexivity.
Defined.

Lemma attach_ui_elsewhere_witness :
  (exists h', Commit_AttachUI (at_ 8%positive) (Some [Byte.x09]) sample_envelopes = Ok (tt, h') /\
     Commit_UIBytes (at_ 15%positive) h' = Commit_UIBytes (at_ 15%positive) sample_envelopes /\
     Commit_Payload sample_Marshal (at_ 15%positive) h' =
       Commit_Payload sample_Marshal (at_ 15%positive) sample_envelopes /\
     Prepare_Payload sample_Marshal (at_ 6%positive) h' =
       Prepare_Payload sample_Marshal (at_ 6%positive) sample_envelopes) /\
  (exists h', Prepare_AttachUI (at_ 6%positive) (Some [Byte.x09]) sample_envelopes = Ok (tt, h') /\
     Commit_UIBytes (at_ 15%positive) h' = Commit_UIBytes (at_ 15%positive) sample_envelopes /\
     Commit_Payload sample_Marshal (at_ 15%positive) h' =
       Commit_Payload sample_Marshal (at_ 15%positive) sample_envelopes).
Proof.
  split.
  - destruct (attach_ui_elsewhere sample_Marshal sample_envelopes 8%positive (Some [Byte.x09]))
      as (_ & H).
    destruct (H sample_Commit) as (h' & Hrun & Hc & Hp); [reflexivity|].
    exists h'. split; [exact Hrun|].
    destruct (Hc (at_ 15%positive)) as (H1 & _ & H2); [discriminate|].
    destruct (Hp (at_ 6%positive)) as (_ & _ & H3).
    split; [exact H1|]. split; [exact H2 | exact H3].
  - destruct (attach_ui_elsewhere sample_Marshal sample_envelopes 6%positive (Some [Byte.x09]))
      as (H & _).
    destruct (H sample_Prepare) as (h' & Hrun & _ & Hc); [reflexivity|].
    exists h'. split; [exact Hrun|].
    destruct (Hc (at_ 15%positive)) as (H1 & _ & H2).
    split; [exact H1 | exact H2].
Defined.

Lemma attach_signature_elsewhere_witness :
  (exists h', Request_AttachSignature (at_ 2%positive) None sample_heap = Ok (tt, h') /\
     Reply_SignatureBytes (at_ 4%positive) h' = Reply_SignatureBytes (at_ 4%positive) sample_heap /\
     Reply_Payload sample_Marshal (at_ 4%positive) h' =
       Reply_Payload sample_Marshal (at_ 4%positive) sample_heap) /\
  (exists h', Reply_AttachSignature (at_ 4%positive) None sample_heap = Ok (tt, h') /\
     Request_SignatureBytes (at_ 2%positive) h' = Request_SignatureBytes (at_ 2%positive) sample_heap /\
     Request_ClientID (at_ 2%positive) h' = Request_ClientID (at_ 2%positive) sample_heap /\
     Request_Payload sample_Marshal (at_ 2%positive) h' =
       Request_Payload sample_Marshal (at_ 2%positive) sample_heap).
Proof.
  split.
  - destruct (attach_signature_elsewhere sample_Marshal sample_heap 2%positive None)
      as (H & _).
    destruct (H sample_Request) as (h' & Hrun & _ & Hr); [reflexivity|].
    exists h'. split; [exact Hrun | exact (Hr (at_ 4%positive))].
  - destruct (attach_signature_elsewhere sample_Marshal sample_heap 4%positive None)
      as (_ & H).
    destruct (H sample_Reply) as (h' & Hrun & _ & Hr); [reflexivity|].
    exists h'. split; [exact Hrun | exact (Hr (at_ 2%positive))].
Defined.

Lemma embedded_request_signature_witness :
  exists h',
    Request_AttachSignature (at_ 2%positive) (Some [Byte.x07]) sample_heap = Ok (tt, h') /\
    Prepare_Payload sample_Marshal (at_ 6%positive) h' =
      marshal_or_panic sample_Marshal
        (pb_Prepare_M
           (Some {| pb_Prepare_M_View := 4; pb_Prepare_M_ReplicaId := 0;
                    pb_Prepare_M_Request :=
                      Some {| pb_Request_Msg := Some sample_Request_M;
                              pb_Request_Signature := Some [Byte.x07] |} |})) h' /\
    Commit_Payload sample_Marshal (at_ 8%positive) h' =
      marshal_or_panic sample_Marshal
        (pb_Commit_M
           (Some {| pb_Commit_M_View := 4; pb_Commit_M_ReplicaId := 2;
                    pb_Commit_M_PrimaryId := 0;
                    pb_Commit_M_Request :=
                      Some {| pb_Request_Msg := Some sample_Request_M;
                              pb_Request_Signature := Some [Byte.x07] |};
                    pb_Commit_M_PrimaryUi := Some [Byte.x01] |})) h'.
Proof.
  destruct (embedded_request_signature sample_Marshal sample_heap 2%positive sample_Request
              (Some sample_Request_M) (Some [Byte.x07]))
    as (h' & Hrun & Hp & Hc); [reflexivity | reflexivity |].
  exists h'. split; [exact Hrun|]. split.
  - apply (Hp (at_ 6%positive) sample_Prepare sample_Prepare_M).
    + exists 6%positive; split; reflexivity.
    + exists 5%positive; split; reflexivity.
    + reflexivity.
  - apply (Hc (at_ 8%positive) sample_Commit sample_Commit_M).
    + exists 8%positive; split; reflexivity.
    + exists 7%positive; split; reflexivity.
    + reflexivity.
Defined.

Lemma nil_receiver_panics_witness :
  Prepare_ReplicaID nil sample_heap = Panic nil_dereference /\
  Commit_AttachUI nil None sample_heap = Panic nil_dereference /\
  Request_ClientID nil sample_heap = Ok 0.
Proof.
  destruct (nil_receiver_panics sample_heap None nil_dereference)
    as (H1 & _ & _ & _ & _ & H6 & _).
  split; [by apply H1|]. split; [by apply H6 | reflexivity].
Defined.

Lemma UnwrapMessage_WrapMessage_witness :
  exists k e' h',
    kind_of (any_Prepare (at_ 6%positive)) = Some k /\
    envelope_tag (at_ 12%positive) sample_envelopes = Ok (Some k) /\
    WrapMessage (any_Prepare (at_ 6%positive)) sample_envelopes = Ok (e', h') /\
    e' <> at_ 12%positive /\
    envelope_tag e' h' = Ok (Some k) /\
    UnwrapMessage e' h' = Ok (any_Prepare (at_ 6%positive)) /\
    UnwrapMessage (at_ 12%positive) h' = Ok (any_Prepare (at_ 6%positive)).
Proof.
  apply (UnwrapMessage_WrapMessage sample_envelopes (at_ 12%positive)).
  reflexivity.
Defined.

Lemma WrapMessage_twice_witness :
  exists e1 h1 e2 h2,
    WrapMessage (any_Request (at_ 2%positive)) sample_heap = Ok (e1, h1) /\
    WrapMessage (any_Commit nil) h1 = Ok (e2, h2) /\
    e1 <> e2 /\
    UnwrapMessage e1 h2 = Ok (any_Request (at_ 2%positive)) /\
    UnwrapMessage e2 h2 = Ok (any_Commit nil).
Proof.
  apply (WrapMessage_twice sample_heap _ _ KRequest KCommit); reflexivity.
Defined.

Lemma UnwrapMessage_panics_witness :
  UnwrapMessage (at_ 13%positive) sample_envelopes = Panic nil_dereference /\
  UnwrapMessage (at_ 9%positive) sample_envelopes =
    Panic (panic_string "Unknown message type").
Proof.
  destruct (UnwrapMessage_panics sample_envelopes) as (_ & H).
  split.
  - apply (H (at_ 13%positive) {| Message_Type := Type_Commit nil |}); [reflexivity|].
    right. right. right. reflexivity.
  - apply (H (at_ 9%positive) {| Message_Type := Type_nil |}); [reflexivity|].
    split; reflexivity.
Defined.

Lemma allocation_keeps_accessors_witness :
  exists e h',
    WrapMessage (any_Prepare (at_ 6%positive)) sample_heap = Ok (e, h') /\
    (exists b, e = at_ b /\ sample_heap !! b = None) /\
    accessors_agree sample_Marshal sample_heap h'.
Proof.
  destruct (WrapMessage_alloc sample_heap (any_Prepare (at_ 6%positive)) KPrepare)
    as (b & h' & Hrun & _); [reflexivity|].
  exists (at_ b), h'. split; [exact Hrun|].
  destruct (allocation_keeps_accessors sample_Marshal sample_heap h') as (H & _).
  exact (H _ _ Hrun).
Defined.

Lemma Commit_Prepare_same_Prepare_witness :
  exists p1 h1 p2 h2,
    Commit_Prepare (at_ 8%positive) sample_envelopes = Ok (p1, h1) /\
    Commit_Prepare (at_ 15%positive) h1 = Ok (p2, h2) /\
    p1 <> p2 /\
    Prepare_Payload sample_Marshal p1 h2 = Prepare_Payload sample_Marshal p2 h2 /\
    Prepare_UIBytes p1 h2 = Prepare_UIBytes p2 h2.
Proof.
  apply (Commit_Prepare_same_Prepare sample_Marshal sample_envelopes
           (at_ 8%positive) (at_ 15%positive)
           sample_Commit sample_Commit_3 sample_Commit_M sample_Commit_M_3).
  - exists 8%positive; split; reflexivity.
  - exists 7%positive; split; reflexivity.
  - exists 15%positive; split; reflexivity.
  - exists 14%positive; split; reflexivity.
  - reflexivity.
Defined.

Lemma Commit_Prepare_is_a_copy_witness :
  exists p h1 h2 p' h3,
    Commit_Prepare (at_ 8%positive) sample_heap = Ok (p, h1) /\
    Prepare_AttachUI p (Some [Byte.x09]) h1 = Ok (tt, h2) /\
    Commit_content (at_ 8%positive) h2 = Commit_content (at_ 8%positive) sample_heap /\
    Commit_Payload sample_Marshal (at_ 8%positive) h2 =
      Commit_Payload sample_Marshal (at_ 8%positive) h1 /\
    Commit_Prepare (at_ 8%positive) h2 = Ok (p', h3) /\
    p' <> p /\
    Prepare_UIBytes p h3 = Ok (Some [Byte.x09]) /\
    Prepare_UIBytes p' h3 = Ok (Some [Byte.x01]).
Proof.
  apply (Commit_Prepare_is_a_copy sample_Marshal sample_heap (at_ 8%positive)
           sample_Commit sample_Commit_M (Some [Byte.x09])).
  - exists 8%positive; split; reflexivity.
  - exists 7%positive; split; reflexivity.
Defined.

Lemma Commit_Prepare_shares_request_witness :
  exists p h1 h2,
    Commit_Prepare (at_ 8%positive) sample_heap = Ok (p, h1) /\
    Commit_Request (at_ 8%positive) h1 = Ok (at_ 2%positive) /\
    Request_AttachSignature (at_ 2%positive) (Some [Byte.x07]) h1 = Ok (tt, h2) /\
    Prepare_Payload sample_Marshal p h2 =
      marshal_or_panic sample_Marshal
        (pb_Prepare_M
           (Some {| pb_Prepare_M_View := 4; pb_Prepare_M_ReplicaId := 0;
                    pb_Prepare_M_Request :=
                      Some {| pb_Request_Msg := Some sample_Request_M;
                              pb_Request_Signature := Some [Byte.x07] |} |})) h2 /\
    Commit_Payload sample_Marshal (at_ 8%positive) h2 =
      marshal_or_panic sample_Marshal
        (pb_Commit_M
           (Some {| pb_Commit_M_View := 4; pb_Commit_M_ReplicaId := 2;
                    pb_Commit_M_PrimaryId := 0;
                    pb_Commit_M_Request :=
                      Some {| pb_Request_Msg := Some sample_Request_M;
                              pb_Request_Signature := Some [Byte.x07] |};
                    pb_Commit_M_PrimaryUi := Some [Byte.x01] |})) h2.
Proof.
  apply (Commit_Prepare_shares_request sample_Marshal sample_heap (at_ 8%positive)
           sample_Commit sample_Commit_M 2%positive sample_Request
           (Some sample_Request_M) (Some [Byte.x07])).
  - exists 8%positive; split; reflexivity.
  - exists 7%positive; split; reflexivity.
  - reflexivity.
  - reflexivity.
  - reflexivity.
Defined.

(** ** Authentication roles *)

Lemma string_length_app (s1 s2 : string) :
  String.length (s1 +:+ s2) = (String.length s1 + String.length s2)%nat.
Proof. induction s1 as [|c s1 IH]; simpl; [done | by rewrite IH]. Qed.

Lemma string_app_inj_r (s1 s2 s : string) : s1 +:+ s = s2 +:+ s -> s1 = s2.
Proof.
  intros Happ.
  assert (String.length s1 = String.length s2) as Hlen.
  { apply (f_equal String.length) in Happ.
    rewrite !string_length_app in Happ. lia. }
  revert s2 Happ Hlen. induction s1 as [|c s1 IH]; intros [|c' s2] Happ Hlen;
    simplify_eq/=; [done|].
  f_equal. by apply IH.
Qed.

Lemma Sprintf_AuthenticationRole_inj r1 r2 :
  Sprintf_AuthenticationRole r1 = Sprintf_AuthenticationRole r2 -> r1 = r2.
Proof.
  unfold Sprintf_AuthenticationRole. intros H.
  apply (inj (String.app "AuthenticationRole(")) in H.
  apply string_app_inj_r in H. by apply (inj pretty).
Qed.

(** X2. The three names are given to the three constants and to nothing
    else: every other value, the zero value of the type included,
    prints as AuthenticationRole(n). *)
Theorem AuthenticationRole_String_named (r : AuthenticationRole) :
  (AuthenticationRole_String r = "replica" <-> r = 1) /\
  (AuthenticationRole_String r = "usig" <-> r = 2) /\
  (AuthenticationRole_String r = "client" <-> r = 3) /\
  (r <> 1 -> r <> 2 -> r <> 3 ->
   AuthenticationRole_String r = "AuthenticationRole(" +:+ pretty r +:+ ")").
Proof.
  unfold AuthenticationRole_String, ReplicaAuthen, USIGAuthen, ClientAuthen,
    Sprintf_AuthenticationRole.
  repeat case_decide; simplify_eq/=; repeat split; intros; simplify_eq/=; done.
Qed.

(** X1. String() tells any two roles apart: two values with the same
    text are the same value. *)
Theorem AuthenticationRole_String_inj (r1 r2 : AuthenticationRole) :
  AuthenticationRole_String r1 = AuthenticationRole_String r2 -> r1 = r2.
Proof.
  unfold AuthenticationRole_String.
  repeat case_decide; subst; try done;
    try (unfold Sprintf_AuthenticationRole; simpl; discriminate).
  apply Sprintf_AuthenticationRole_inj.
Qed.

Lemma AuthenticationRole_String_inj_witness :
  (1 + 2 = 3 :> AuthenticationRole) /\
  AuthenticationRole_String (1 + 2) = "client".
Proof.
  split; [|reflexivity].
  apply (AuthenticationRole_String_inj (1 + 2) 3). reflexivity.
Defined.

Lemma AuthenticationRole_String_named_witness :
  AuthenticationRole_String 0 = "AuthenticationRole(0)" /\
  AuthenticationRole_String (-7) = "AuthenticationRole(-7)".
Proof.
  split.
  - apply (AuthenticationRole_String_named 0); discriminate.
  - apply (AuthenticationRole_String_named (-7)); discriminate.
Defined.
